(** * function-go-templating: the request pipeline of [fn.go]

    A shallow embedding of [fn.go] and of the fragments of the Go runtime
    and standard packages it calls ([unicode/utf8], [strings], [strconv],
    [fmt] scanning, [text/template] options, the function SDK's [errors]
    and [response] helpers), followed by the properties of the pipeline.

    Go strings are byte sequences: they are modelled by [string], whose
    characters are the bytes.  Go's [int] is the 64-bit two's complement
    integer: it is modelled by [Z] with the wrap-around written out. *)

From Stdlib Require Import ZArith Lia Bool Ascii String List.
From stdpp Require Import base option list strings gmap.

Local Open Scope string_scope.
Local Open Scope Z_scope.

(** ** Machine integers *)

Module GoInt.

Definition min_int : Z := - 2 ^ 63.
Definition max_int : Z := 2 ^ 63 - 1.

Definition in_range (x : Z) : Prop := min_int <= x <= max_int.

(** Two's complement reduction of an unbounded integer to [int]. *)
Definition wrap (x : Z) : Z := (x + 2 ^ 63) mod 2 ^ 64 - 2 ^ 63.

Definition add (x y : Z) : Z := wrap (x + y).
Definition sub (x y : Z) : Z := wrap (x - y).

End GoInt.

(** ** Run-time panics *)

(** The values a Go [panic] can carry here: a string (what [text/template]
    raises), and the run-time errors of indexing, slicing and of calling a
    method through a nil interface. *)
Inductive panic_value : Type :=
  | PanicString (s : string)
  | IndexOutOfRange (index : Z) (length : nat)
  | SliceOutOfRange (bound : Z) (length : nat)
  | NilDereference.

(** A call either returns or unwinds with a panic value. *)
Inductive outcome (A : Type) : Type :=
  | Returned (a : A)
  | Panicked (v : panic_value).

Arguments Returned {A} a.
Arguments Panicked {A} v.

#[global] Instance outcome_ret : MRet outcome := fun A a => Returned a.
#[global] Instance outcome_bind : MBind outcome := fun A B f m =>
  match m with
  | Returned a => f a
  | Panicked v => Panicked v
  end.

(** [recover()] in a deferred call: the panic value when the body is
    unwinding, nothing otherwise. *)
Definition recover {A} (body : outcome A) : option panic_value :=
  match body with
  | Returned _ => None
  | Panicked v => Some v
  end.

(** ** Slices of strings and bytes *)

Definition len {A} (l : list A) : Z := Z.of_nat (length l).
Definition strlen (s : string) : Z := Z.of_nat (String.length s).

(** [l[i]]: panics outside [0 <= i < len(l)]. *)
Definition index {A} (l : list A) (i : Z) : outcome A :=
  if (0 <=? i) && (i <? len l) then
    match l !! Z.to_nat i with
    | Some x => Returned x
    | None => Panicked (IndexOutOfRange i (length l))
    end
  else Panicked (IndexOutOfRange i (length l)).

Definition byte_val (c : ascii) : Z := Z.of_N (N_of_ascii c).

Fixpoint string_drop (n : nat) (s : string) : string :=
  match n, s with
  | O, _ => s
  | S n', String _ s' => string_drop n' s'
  | S _, EmptyString => EmptyString
  end.

Fixpoint string_take (n : nat) (s : string) : string :=
  match n, s with
  | S n', String c s' => String c (string_take n' s')
  | _, _ => EmptyString
  end.

(** [s[lo:]]: panics outside [0 <= lo <= len(s)]. *)
Definition slice_from (s : string) (lo : Z) : outcome string :=
  if (0 <=? lo) && (lo <=? strlen s) then Returned (string_drop (Z.to_nat lo) s)
  else Panicked (SliceOutOfRange lo (String.length s)).

(** [s[lo:hi]] for indices already known to be in range. *)
Definition substr (s : string) (lo hi : Z) : string :=
  string_take (Z.to_nat (hi - lo)) (string_drop (Z.to_nat lo) s).

(** [s[i]] as a byte, 0 outside the string (never used outside). *)
Definition byte_at (s : string) (i : Z) : Z :=
  match String.get (Z.to_nat i) s with
  | Some c => byte_val c
  | None => 0
  end.

(** ** Package [unicode/utf8] *)

Module utf8.

Definition RuneError : Z := 0xFFFD.
Definition RuneSelf : Z := 0x80.
Definition UTFMax : Z := 4.

Definition maskx : Z := 0x3F.
Definition mask2 : Z := 0x1F.
Definition mask3 : Z := 0x0F.
Definition mask4 : Z := 0x07.

Definition locb : Z := 0x80.
Definition hicb : Z := 0xBF.

Definition xx : Z := 0xF1.
Definition as_ : Z := 0xF0.
Definition s1 : Z := 0x02.
Definition s2 : Z := 0x13.
Definition s3 : Z := 0x03.
Definition s4 : Z := 0x23.
Definition s5 : Z := 0x34.
Definition s6 : Z := 0x04.
Definition s7 : Z := 0x44.

(** The table [first]: information about the first byte of an encoding. *)
Definition first (b : Z) : Z :=
  if b <? 0x80 then as_
  else if b <? 0xC2 then xx
  else if b <? 0xE0 then s1
  else if b =? 0xE0 then s2
  else if b <? 0xED then s3
  else if b =? 0xED then s4
  else if b <? 0xF0 then s3
  else if b =? 0xF0 then s5
  else if b <? 0xF4 then s6
  else if b =? 0xF4 then s7
  else xx.

(** The table [acceptRanges]: the range allowed for the second byte. *)
Definition acceptRanges (i : Z) : Z * Z :=
  if i =? 1 then (0xA0, hicb)
  else if i =? 2 then (locb, 0x9F)
  else if i =? 3 then (0x90, hicb)
  else if i =? 4 then (locb, 0x8F)
  else (locb, hicb).

Definition continuation (b : Z) : bool := (locb <=? b) && (b <=? hicb).

(** [DecodeRuneInString]: the first rune of [s] and its width in bytes;
    [(RuneError, 0)] for the empty string and [(RuneError, 1)] for an
    invalid encoding. *)
Definition DecodeRuneInString (s : string) : Z * nat :=
  match s with
  | EmptyString => (RuneError, 0%nat)
  | String c0 t0 =>
    let b0 := byte_val c0 in
    let x := first b0 in
    if as_ <=? x then ((if x =? xx then RuneError else b0), 1%nat)
    else
      let sz := Z.land x 7 in
      let '(lo, hi) := acceptRanges (Z.shiftr x 4) in
      match t0 with
      | EmptyString => (RuneError, 1%nat)
      | String c1 t1 =>
        let b1 := byte_val c1 in
        if (b1 <? lo) || (hi <? b1) then (RuneError, 1%nat)
        else if sz <=? 2 then
          (Z.lor (Z.shiftl (Z.land b0 mask2) 6) (Z.land b1 maskx), 2%nat)
        else
          match t1 with
          | EmptyString => (RuneError, 1%nat)
          | String c2 t2 =>
            let b2 := byte_val c2 in
            if negb (continuation b2) then (RuneError, 1%nat)
            else if sz <=? 3 then
              (Z.lor (Z.lor (Z.shiftl (Z.land b0 mask3) 12)
                            (Z.shiftl (Z.land b1 maskx) 6))
                     (Z.land b2 maskx), 3%nat)
            else
              match t2 with
              | EmptyString => (RuneError, 1%nat)
              | String c3 _ =>
                let b3 := byte_val c3 in
                if negb (continuation b3) then (RuneError, 1%nat)
                else
                  (Z.lor (Z.lor (Z.lor (Z.shiftl (Z.land b0 mask4) 18)
                                       (Z.shiftl (Z.land b1 maskx) 12))
                                (Z.shiftl (Z.land b2 maskx) 6))
                         (Z.land b3 maskx), 4%nat)
              end
          end
      end
  end.

(** [RuneStart]: the byte is not a continuation byte. *)
Definition RuneStart (b : Z) : bool := negb (Z.land b 0xC0 =? 0x80).

(** The backwards search of [DecodeLastRuneInString] for the start of the
    last rune: at most [UTFMax - 1] steps down from [start], never below
    [lim]. *)
Fixpoint last_start (fuel : nat) (s : string) (lim start : Z) : Z :=
  match fuel with
  | O => start
  | S fuel' =>
    if start <? lim then start
    else if RuneStart (byte_at s start) then start
    else last_start fuel' s lim (start - 1)
  end.

(** [DecodeLastRuneInString]: the last rune of [s] and its width. *)
Definition DecodeLastRuneInString (s : string) : Z * nat :=
  let end_ := strlen s in
  if end_ =? 0 then (RuneError, 0%nat)
  else
    let r := byte_at s (end_ - 1) in
    if r <? RuneSelf then (r, 1%nat)
    else
      let lim := Z.max 0 (end_ - UTFMax) in
      let start := Z.max 0 (last_start 4 s lim (end_ - 2)) in
      let '(r', size) := DecodeRuneInString (substr s start end_) in
      if start + Z.of_nat size =? end_ then (r', size)
      else (RuneError, 1%nat).

End utf8.

(** ** Package [unicode] *)

Module unicode.

Definition MaxLatin1 : Z := 0xFF.

(** The ranges of the [White_Space] table above Latin-1. *)
Definition White_Space_above_Latin1 (r : Z) : bool :=
  (r =? 0x1680) || ((0x2000 <=? r) && (r <=? 0x200A))
  || ((0x2028 <=? r) && (r <=? 0x2029)) || (r =? 0x202F)
  || (r =? 0x205F) || (r =? 0x3000).

(** [IsSpace]: tab, newline, vertical tab, form feed, carriage return,
    space, NEL and NBSP in Latin-1; the [White_Space] property above. *)
Definition IsSpace (r : Z) : bool :=
  if (0 <=? r) && (r <=? MaxLatin1) then
    ((0x09 <=? r) && (r <=? 0x0D)) || (r =? 0x20) || (r =? 0x85) || (r =? 0xA0)
  else White_Space_above_Latin1 r.

End unicode.

(** ** Package [strings] *)

Module strings.

Fixpoint HasPrefix (s prefix : string) {struct prefix} : bool :=
  match prefix, s with
  | EmptyString, _ => true
  | String p prefix', String c s' => Ascii.eqb c p && HasPrefix s' prefix'
  | String _ _, EmptyString => false
  end.

(** [Index]: the byte index of the first instance of [substr] in [s], or
    [-1]. *)
Fixpoint Index_from (s substr : string) (i : Z) : Z :=
  if HasPrefix s substr then i
  else
    match s with
    | EmptyString => -1
    | String _ s' => Index_from s' substr (i + 1)
    end.

Definition Index (s substr : string) : Z := Index_from s substr 0.

(** [TrimLeftFunc(s, unicode.IsSpace)]: drop leading runes while they are
    space.  One unit of fuel per rune; [length s] is enough. *)
Fixpoint trim_left (fuel : nat) (s : string) : string :=
  match fuel with
  | O => s
  | S fuel' =>
    match s with
    | EmptyString => EmptyString
    | String _ _ =>
      let '(r, wid) := utf8.DecodeRuneInString s in
      if unicode.IsSpace r then trim_left fuel' (string_drop wid s) else s
    end
  end.

(** [TrimRightFunc(s, unicode.IsSpace)]: drop trailing runes while they
    are space, reading the string backwards from index [i]. *)
Fixpoint trim_right (fuel : nat) (s : string) (i : Z) : string :=
  match fuel with
  | O => substr s 0 i
  | S fuel' =>
    if i <=? 0 then EmptyString
    else
      let '(r, size) := utf8.DecodeLastRuneInString (substr s 0 i) in
      if unicode.IsSpace r then trim_right fuel' s (i - Z.of_nat size)
      else substr s 0 i
  end.

(** [TrimSpace]: [s] without leading and trailing white space, as
    defined by Unicode.  (The library's fast path for ASCII computes the
    same string.) *)
Definition TrimSpace (s : string) : string :=
  let l := trim_left (String.length s) s in
  trim_right (String.length l) l (strlen l).

End strings.

(** ** Package [strconv] *)

Module strconv.

Definition is_digit (b : Z) : bool := (48 <=? b) && (b <=? 57).

Definition digit_char (d : Z) : ascii := ascii_of_N (Z.to_N (48 + d)).

(** The decimal digits of [u >= 0], written from the right in front of
    [acc]; one unit of fuel per digit. *)
Fixpoint format_digits (fuel : nat) (u : Z) (acc : string) : string :=
  match fuel with
  | O => acc
  | S fuel' =>
    let acc' := String (digit_char (u mod 10)) acc in
    if u <? 10 then acc' else format_digits fuel' (u / 10) acc'
  end.

Definition FormatUint (u : Z) : string :=
  format_digits (S (Z.to_nat (Z.log2 u))) u EmptyString.

(** [FormatInt(i, 10)]. *)
Definition FormatInt (i : Z) : string :=
  if i <? 0 then String "-" (FormatUint (- i)) else FormatUint i.

(** The value of a string of decimal digits read from the left, [None]
    at the first byte that is not a digit. *)
Fixpoint parse_digits (s : string) (acc : Z) : option Z :=
  match s with
  | EmptyString => Some acc
  | String c s' =>
    if is_digit (byte_val c) then parse_digits s' (acc * 10 + (byte_val c - 48))
    else None
  end.

Inductive NumError : Type := ErrSyntax | ErrRange.

(** [ParseUint(s, 10, 64)]. *)
Definition ParseUint (s : string) : Z * option NumError :=
  match s with
  | EmptyString => (0, Some ErrSyntax)
  | String _ _ =>
    match parse_digits s 0 with
    | None => (0, Some ErrSyntax)
    | Some u => if 2 ^ 64 <=? u then (2 ^ 64 - 1, Some ErrRange) else (u, None)
    end
  end.

(** [ParseInt(s, 10, 64)]. *)
Definition ParseInt (s : string) : Z * option NumError :=
  match s with
  | EmptyString => (0, Some ErrSyntax)
  | String c s' =>
    let neg := Ascii.eqb c "-" in
    let digits := if Ascii.eqb c "+" || neg then s' else s in
    let '(un, err) := ParseUint digits in
    match err with
    | Some ErrSyntax => (0, Some ErrSyntax)
    | _ =>
      let cutoff := 2 ^ 63 in
      if negb neg && (cutoff <=? un) then (cutoff - 1, Some ErrRange)
      else if neg && (cutoff <? un) then (- cutoff, Some ErrRange)
      else (if neg then - un else un, None)
    end
  end.

End strconv.

(** ** Errors *)

(** A Go [error]: the nil interface, or a value with its [Error()] text. *)
Inductive error : Type :=
  | ErrNil
  | Err (msg : string).

(** [err.Error()]: a call through the nil interface panics. *)
Definition Error_ (err : error) : outcome string :=
  match err with
  | ErrNil => Panicked NilDereference
  | Err msg => Returned msg
  end.

(** ** Package [fmt] *)

Module fmt.

Definition eof : Z := -1.

(** [isSpace] of [fmt/scan.go], the table [space] written out. *)
Definition isSpace (r : Z) : bool :=
  if 2 ^ 16 <=? r then false
  else
    ((0x0009 <=? r) && (r <=? 0x000d)) || (r =? 0x0020) || (r =? 0x0085)
    || (r =? 0x00a0) || (r =? 0x1680) || ((0x2000 <=? r) && (r <=? 0x200a))
    || ((0x2028 <=? r) && (r <=? 0x2029)) || (r =? 0x202f) || (r =? 0x205f)
    || (r =? 0x3000).

(** [getRune]: the next rune of the input and the input after it, [eof]
    at the end.  ([UnreadRune] is continuing with the input before.) *)
Definition getRune (input : string) : Z * string :=
  match input with
  | EmptyString => (eof, EmptyString)
  | String _ _ =>
    let '(r, wid) := utf8.DecodeRuneInString input in (r, string_drop wid input)
  end.

(** The elements of a format: a literal rune, a run of spaces without a
    newline, the verb [%d]; anything else is outside the fragment. *)
Inductive directive : Type :=
  | Lit (r : Z)
  | Blank
  | VerbD
  | Unsupported.

Definition format_blank (b : Z) : bool :=
  (b =? 0x20) || (b =? 0x09) || (b =? 0x0b) || (b =? 0x0c) || (b =? 0x0d).

Fixpoint directives (format : string) : list directive :=
  match format with
  | EmptyString => []
  | String "%" (String "d" format') => VerbD :: directives format'
  | String c format' =>
    let b := byte_val c in
    if format_blank b then
      match directives format' with
      | Blank :: ds => Blank :: ds
      | ds => Blank :: ds
      end
    else if (b =? 0x25) || (b =? 0x0a) || (0x80 <=? b) then
      Unsupported :: directives format'
    else Lit b :: directives format'
  end.

(** The loop of [advance] on a run of spaces of the format: consume
    spaces of the input up to a newline. *)
Fixpoint skip_blanks (fuel : nat) (input : string) : string :=
  match fuel with
  | O => input
  | S fuel' =>
    let '(r, rest) := getRune input in
    if r =? eof then input
    else if isSpace r && negb (r =? 0x0a) then skip_blanks fuel' rest
    else input
  end.

Definition peek (ok : Z -> bool) (input : string) : bool :=
  ok (fst (getRune input)).

(** [SkipSpace] with [nlIsSpace] off, as [Sscanf] sets it: a newline in
    the input is an error. *)
Fixpoint SkipSpace (fuel : nat) (input : string) : string + string :=
  match fuel with
  | O => inl input
  | S fuel' =>
    let '(r, rest) := getRune input in
    if r =? eof then inl input
    else if (r =? 0x0d) && peek (Z.eqb 0x0a) rest then SkipSpace fuel' rest
    else if r =? 0x0a then inr "unexpected newline"
    else if negb (isSpace r) then inl input
    else SkipSpace fuel' rest
  end.

(** [accept(sign)]: consume one [+] or [-]. *)
Definition accept_sign (input : string) : string * string :=
  match input with
  | String c rest =>
    if Ascii.eqb c "+" || Ascii.eqb c "-" then (String c EmptyString, rest)
    else (EmptyString, input)
  | EmptyString => (EmptyString, EmptyString)
  end.

(** The loop [for s.accept(digits)] of [scanNumber]: the decimal digits
    are single bytes, and no other rune starts with one of them. *)
Fixpoint accept_digits (input : string) : string * string :=
  match input with
  | String c rest =>
    if strconv.is_digit (byte_val c) then
      let '(tok, rest') := accept_digits rest in (String c tok, rest')
    else (EmptyString, input)
  | EmptyString => (EmptyString, EmptyString)
  end.

(** [scanInt('d', 64)]: the integer read and the input after it, or the
    text of the scan error. *)
Definition scanInt (input : string) : (Z * string) + string :=
  match SkipSpace (S (String.length input)) input with
  | inr e => inr e
  | inl input1 =>
    match input1 with
    | EmptyString => inr "EOF"
    | String _ _ =>
      let '(sgn, input2) := accept_sign input1 in
      match input2 with
      | EmptyString => inr "EOF"
      | String _ _ =>
        let '(tok, input3) := accept_digits input2 in
        match tok with
        | EmptyString => inr "expected integer"
        | String _ _ =>
          match strconv.ParseInt (sgn +:+ tok) with
          | (i, None) => inl (i, input3)
          | (_, Some strconv.ErrSyntax) => inr "invalid syntax"
          | (_, Some strconv.ErrRange) => inr "value out of range"
          end
        end
      end
    end
  end.

(** What [Sscanf] leaves behind: the count of operands filled, the error
    and the operand. *)
Record scan_result : Type := {
  scan_n : Z;
  scan_err : error;
  scan_arg : Z;
}.

(** [doScanf] with one [*int] operand holding [arg]; [n] operands have
    been filled. *)
Fixpoint doScanf (ds : list directive) (input : string) (n : Z) (arg : Z)
  : scan_result :=
  match ds with
  | [] =>
    {| scan_n := n;
       scan_err := if n <? 1 then Err "too many operands" else ErrNil;
       scan_arg := arg |}
  | Lit c :: ds' =>
    let '(r, rest) := getRune input in
    if r =? eof then
      {| scan_n := n; scan_err := Err "unexpected EOF"; scan_arg := arg |}
    else if r =? c then doScanf ds' rest n arg
    else
      {| scan_n := n; scan_err := Err "input does not match format";
         scan_arg := arg |}
  | Blank :: ds' =>
    let '(inputc, _) := getRune input in
    if negb (isSpace inputc) && negb (inputc =? eof) then
      {| scan_n := n;
         scan_err := Err "expected space in input to match format";
         scan_arg := arg |}
    else if inputc =? 0x0a then
      {| scan_n := n;
         scan_err := Err "newline in input does not match format";
         scan_arg := arg |}
    else doScanf ds' (skip_blanks (String.length input) input) n arg
  | VerbD :: ds' =>
    match SkipSpace (S (String.length input)) input with
    | inr e => {| scan_n := n; scan_err := Err e; scan_arg := arg |}
    | inl input1 =>
      if 1 <=? n then
        {| scan_n := n; scan_err := Err "too few operands for format '%d'";
           scan_arg := arg |}
      else
        match scanInt input1 with
        | inr e => {| scan_n := n; scan_err := Err e; scan_arg := arg |}
        | inl (i, rest) => doScanf ds' rest (n + 1) i
        end
    end
  | Unsupported :: _ =>
    {| scan_n := n; scan_err := Err "unsupported format"; scan_arg := arg |}
  end.

(** [Sscanf(str, format, &arg)] for a format of literals, spaces and one
    [%d]. *)
Definition Sscanf (str format : string) (arg : Z) : scan_result :=
  doScanf (directives format) str 0 arg.

(** [Sprintf(format, a)] for the same formats. *)
Fixpoint Sprintf (format : string) (a : Z) : string :=
  match format with
  | EmptyString => EmptyString
  | String "%" (String "d" format') => strconv.FormatInt a +:+ Sprintf format' a
  | String c format' => String c (Sprintf format' a)
  end.

(** The verb [%v] on a recovered panic value. *)
Definition format_v (v : panic_value) : string :=
  match v with
  | PanicString s => s
  | IndexOutOfRange i n =>
    "runtime error: index out of range [" +:+ strconv.FormatInt i
      +:+ "] with length " +:+ strconv.FormatInt (Z.of_nat n)
  | SliceOutOfRange b n =>
    "runtime error: slice bounds out of range [" +:+ strconv.FormatInt b
      +:+ ":" +:+ strconv.FormatInt (Z.of_nat n) +:+ "]"
  | NilDereference =>
    "runtime error: invalid memory address or nil pointer dereference"
  end.

End fmt.

(** ** The function SDK's [errors] *)

Module errors.

(** [Wrap(err, message)]: nil stays nil; otherwise the message, a colon
    and the text of the cause. *)
Definition Wrap (err : error) (message : string) : error :=
  match err with
  | ErrNil => ErrNil
  | Err cause => Err (message +:+ ": " +:+ cause)
  end.

(** [Errorf(format + "%v", v)] with the verb last in the format. *)
Definition Errorf_v (format : string) (v : panic_value) : error :=
  Err (format +:+ fmt.format_v v).

End errors.

(** ** Package [text/template]: execution options *)

Module template.

Inductive missingKeyAction : Type := mapInvalid | mapZeroValue | mapError.

(** A parsed template: its text and the option it executes under. *)
Record Template : Type := {
  text : string;
  missingKey : missingKeyAction;
}.

(** [strings.Cut(s, "=")]. *)
Fixpoint cut_eq (s : string) : option (string * string) :=
  match s with
  | EmptyString => None
  | String c s' =>
    if Ascii.eqb c "=" then Some (EmptyString, s')
    else
      match cut_eq s' with
      | Some (key, value) => Some (String c key, value)
      | None => None
      end
  end.

Definition set_missingKey (t : Template) (a : missingKeyAction) : Template :=
  {| text := text t; missingKey := a |}.

(** [setOption]: panics on the empty string and on every option it does
    not recognize. *)
Definition setOption (t : Template) (opt : string) : Template * outcome unit :=
  let unrecognized := (t, Panicked (PanicString ("unrecognized option: " +:+ opt))) in
  if String.eqb opt "" then (t, Panicked (PanicString "empty option string"))
  else
    match cut_eq opt with
    | Some (key, value) =>
      if String.eqb key "missingkey" then
        if String.eqb value "invalid" || String.eqb value "default" then
          (set_missingKey t mapInvalid, Returned tt)
        else if String.eqb value "zero" then
          (set_missingKey t mapZeroValue, Returned tt)
        else if String.eqb value "error" then
          (set_missingKey t mapError, Returned tt)
        else unrecognized
      else unrecognized
    | None => unrecognized
    end.

(** [Option]: set the options in order, in place; a panic leaves the
    options set before it. *)
Fixpoint Option (t : Template) (opt : list string) : Template * outcome unit :=
  match opt with
  | [] => (t, Returned tt)
  | s :: opt' =>
    match setOption t s with
    | (t', Returned _) => Option t' opt'
    | (t', Panicked v) => (t', Panicked v)
    end
  end.

End template.

(** ** The messages of the function protocol *)

(** A JSON value: what [map[string]any] holds after decoding, and the body
    of a resource. *)
#[warnings="-register-all"]
Inductive Value : Type :=
  | VNull
  | VBool (b : bool)
  | VNumber (n : Z)
  | VString (s : string)
  | VList (l : list Value)
  | VStruct (fields : gmap string Value).

Inductive Ready : Type := READY_UNSPECIFIED | READY_TRUE | READY_FALSE.

Record Resource : Type := {
  resource : Value;
  ready : Ready;
}.

Record State : Type := {
  composite : option Resource;
  resources : gmap string Resource;
}.

Inductive Severity : Type :=
  | SEVERITY_UNSPECIFIED
  | SEVERITY_FATAL
  | SEVERITY_WARNING
  | SEVERITY_NORMAL.

Inductive Target : Type := TARGET_UNSPECIFIED | TARGET_COMPOSITE | TARGET_COMPOSITE_AND_CLAIM.

Record Result : Type := {
  severity : Severity;
  message : string;
  target : option Target;
}.

Record ResponseMeta : Type := {
  tag : string;
  ttl_seconds : Z;
}.

Record RunFunctionResponse : Type := {
  meta : option ResponseMeta;
  desired : option State;
  results : list Result;
  context : option Value;
}.

Record RunFunctionRequest : Type := {
  req_tag : string;
  req_observed : option State;
  req_desired : option State;
  req_input : option Value;
  req_context : option Value;
}.

(** ** The function SDK's [response] *)

Module response.

Definition DefaultTTL : Z := 60.

(** [To]: a response to the request, with its tag, desired state and
    context. *)
Definition To (req : RunFunctionRequest) (ttl : Z) : RunFunctionResponse :=
  {| meta := Some {| tag := req_tag req; ttl_seconds := ttl |};
     desired := req_desired req;
     results := [];
     context := req_context req |}.

(** [Fatal]: append a fatal result with the text of the error. *)
Definition Fatal (rsp : RunFunctionResponse) (err : error) : outcome RunFunctionResponse :=
  msg ← Error_ err;
  Returned
    {| meta := meta rsp;
       desired := desired rsp;
       results := results rsp ++
         [{| severity := SEVERITY_FATAL; message := msg;
             target := Some TARGET_COMPOSITE |}];
       context := context rsp |}.

End response.

(** ** [fn.go] *)

(** The input of the function, [v1beta1.GoTemplate]: the fields the
    pipeline reads. *)
Record GoTemplate : Type := {
  Source : string;
  Delims : option (string * string);
  Options : option (list string);
}.

Record YamlErrorContext : Type := {
  RelLine : Z;
  AbsLine : Z;
  Message : string;
  Context : string;
}.

(** The zero value [YamlErrorContext{}]. *)
Definition YamlErrorContext_zero : YamlErrorContext :=
  {| RelLine := 0; AbsLine := 0; Message := ""; Context := "" |}.

Definition annotationKeyCompositionResourceName : string :=
  "gotemplating.fn.crossplane.io/composition-resource-name".
Definition annotationKeyReady : string := "gotemplating.fn.crossplane.io/ready".
Definition metaApiVersion : string := "meta.gotemplating.fn.crossplane.io/v1alpha1".

(** What [RunFunction] calls outside [fn.go]: the reader of the input,
    the template source getter, the template parser with the function maps
    and delimiters, the option setter of the template, the two codecs of
    [convertToMap], the template executor and the manifest decoder.  A
    call that fails gives the text of its (non-nil) error on the right.
    [Decode] decodes in place: it receives the rendered text and the
    response that [&rsp] points to, and gives back the response as it
    leaves it (nil when the document is null; with the fields written
    before the error when it fails) and the text of its error, if any. *)
Record Collaborators (Template : Type) : Type := {
  GetInput : RunFunctionRequest -> GoTemplate + string;
  NewTemplateSourceGetter : option Value -> GoTemplate -> string + string;
  Parse : option (string * string) -> string -> Template + string;
  Option : Template -> list string -> Template * outcome unit;
  protojson_Marshal : RunFunctionRequest -> string + string;
  json_Unmarshal : string -> gmap string Value + string;
  Execute : Template -> gmap string Value -> string + string;
  Decode : string -> RunFunctionResponse ->
           option RunFunctionResponse * option string;
}.

Arguments GetInput {Template} _ _.
Arguments NewTemplateSourceGetter {Template} _ _ _.
Arguments Parse {Template} _ _ _.
Arguments Option {Template} _ _ _.
Arguments protojson_Marshal {Template} _ _.
Arguments json_Unmarshal {Template} _ _.
Arguments Execute {Template} _ _ _.
Arguments Decode {Template} _ _ _.

Section Pipeline.

Context {Template : Type} (E : Collaborators Template).

Definition convertToMap (req : RunFunctionRequest) : gmap string Value + error :=
  match protojson_Marshal E req with
  | inr err =>
    inr (errors.Wrap (Err err) "cannot marshal request from proto to json")
  | inl jReq =>
    match json_Unmarshal E jReq with
    | inr err =>
      inr (errors.Wrap (Err err) "cannot unmarshal json to map[string]any")
    | inl mReq =>
      match mReq !! "extraResources" with
      | Some _ => inl mReq
      | None =>
        match mReq !! "requiredResources" with
        | Some r => inl (<["extraResources" := r]> mReq)
        | None => inl mReq
        end
      end
    end
  end.

(** The deferred function runs after the body, also when the body
    panics; what it assigns to the named result [err] is what the caller
    receives.  The template is updated in place by the options set
    before a panic. *)
Definition safeApplyTemplateOptions (templ : Template) (options : list string)
  : Template * outcome error :=
  let '(templ', body) := Option E templ options in
  let err := ErrNil in
  let err :=
    match recover body with
    | Some rec =>
      errors.Errorf_v "panic occurred while applying template options: " rec
    | None => err
    end in
  (templ', Returned err).

(** [response.Fatal(rsp, errors.Wrap(err, message)); return rsp, nil] *)
Definition fatal (rsp : RunFunctionResponse) (err : error) (message : string)
  : outcome (RunFunctionResponse * error) :=
  rsp' ← response.Fatal rsp (errors.Wrap err message);
  Returned (rsp', ErrNil).

(** [RunFunction] from the conversion of the request on. *)
Definition render (req : RunFunctionRequest) (rsp : RunFunctionResponse)
    (tmpl : Template) : outcome (RunFunctionResponse * error) :=
  match convertToMap req with
  | inr err => fatal rsp err "cannot convert request to map"
  | inl reqMap =>
    match Execute E tmpl reqMap with
    | inr err => fatal rsp (Err err) "cannot execute template"
    | inl data =>
      (* Parse the rendered manifests: decoder.Decode(&rsp) *)
      let '(rsp, err) := Decode E data rsp in
      match err with
      | Some err =>
        match rsp with
        | None =>
          (* response.Fatal assigns rsp.Results through the nil pointer *)
          Panicked NilDereference
        | Some rsp => fatal rsp (Err err) "cannot decode manifest"
        end
      | None =>
        match rsp with
        | None => Panicked NilDereference
        | Some rsp =>
          (* len(rsp.Desired.Resources) *)
          match desired rsp with
          | None => Panicked NilDereference
          | Some _ => Returned (rsp, ErrNil)
          end
        end
      end
    end
  end.

(** [RunFunction].  The calls to the logger are left out, except for the
    evaluation of their arguments where it can panic. *)
Definition RunFunction (req : RunFunctionRequest)
  : outcome (RunFunctionResponse * error) :=
  let rsp := response.To req response.DefaultTTL in
  match GetInput E req with
  | inr err =>
    fatal rsp (Err err) "cannot get Function input from *v1.RunFunctionRequest"
  | inl in_ =>
    match NewTemplateSourceGetter E (req_context req) in_ with
    | inr err => fatal rsp (Err err) "invalid function input"
    | inl templates =>
      match Parse E (Delims in_) templates with
      | inr err =>
        fatal rsp (Err err)
          "invalid function input: cannot parse the provided templates"
      | inl tmpl =>
        match Options in_ with
        | Some options =>
          let '(tmpl, applied) := safeApplyTemplateOptions tmpl options in
          err ← applied;
          match err with
          | Err _ => fatal rsp err "cannot apply template options"
          | ErrNil => render req rsp tmpl
          end
        | None => render req rsp tmpl
        end
      end
    end
  end.

End Pipeline.

(** The loop of [moveToNextDoc], one unit of fuel per test of the loop
    condition; with the result, the indices of [lines] it has read, in
    order.  [None] when the fuel runs out. *)
Fixpoint moveToNextDoc_loop (fuel : nat) (lines : list string) (startLine i : Z)
  : option (list Z * outcome Z) :=
  match fuel with
  | O => None
  | S fuel' =>
    if i <=? len lines then
      let k := GoInt.sub i 1 in
      match index lines k with
      | Panicked v => Some ([k], Panicked v)
      | Returned line =>
        if String.eqb (strings.TrimSpace line) "---" && (startLine <? i) then
          Some ([k], Returned i)
        else
          match moveToNextDoc_loop fuel' lines startLine (GoInt.add i 1) with
          | Some (ks, r) => Some (k :: ks, r)
          | None => None
          end
      end
    else Some ([], Returned startLine)
  end.

Definition moveToNextDoc_run (lines : list string) (startLine : Z)
  : option (list Z * outcome Z) :=
  moveToNextDoc_loop (S (length lines)) lines startLine startLine.

Definition moveToNextDoc (lines : list string) (startLine : Z) : option (outcome Z) :=
  snd <$> moveToNextDoc_run lines startLine.

(** The indices of [lines] that [moveToNextDoc] reads. *)
Definition moveToNextDoc_reads (lines : list string) (startLine : Z) : option (list Z) :=
  fst <$> moveToNextDoc_run lines startLine.

Definition yamlLineFormat : string := "error converting YAML to JSON: yaml: line %d:".

Definition getYamlErrorContextFromErr (err : error) (startLine : Z) (lines : list string)
  : outcome YamlErrorContext :=
  let relLine := 0 in
  errText ← Error_ err;
  let scanned := fmt.Sscanf errText yamlLineFormat relLine in
  let n := fmt.scan_n scanned in
  let scanErr := fmt.scan_err scanned in
  let relLine := fmt.scan_arg scanned in
  let matched :=
    match scanErr with
    | ErrNil => n =? 1
    | Err _ => false
    end in
  errMsg ←
    (if matched then
       let prefix := fmt.Sprintf yamlLineFormat relLine in
       errStr ← Error_ err;
       let idx := strings.Index errStr prefix in
       if negb (idx =? -1) then
         tail ← slice_from errStr (GoInt.add idx (strlen prefix));
         Returned (strings.TrimSpace tail)
       else Returned ""
     else Returned "");
  if matched then
    let absLine := GoInt.add startLine relLine in
    if (GoInt.sub absLine 1 <? len lines) && (0 <=? GoInt.sub absLine 1) then
      line ← index lines (GoInt.sub absLine 1);
      Returned
        {| RelLine := relLine; AbsLine := absLine; Message := errMsg;
           Context := line |}
    else Returned YamlErrorContext_zero
  else Returned YamlErrorContext_zero.

(** ** Vocabulary of the properties *)

(** The lists and strings of the program are Go slices and strings: their
    lengths are values of [int]. *)
Definition slice_ok {A} (l : list A) : Prop := len l < GoInt.max_int.
Definition string_ok (s : string) : Prop := strlen s < GoInt.max_int.

(** Line [i] of [lines], counted from 1. *)
Definition line_at (lines : list string) (i : Z) : option string :=
  if 1 <=? i then lines !! Z.to_nat (i - 1) else None.

(** Line [i] is a document separator: trimmed of white space it is [---]. *)
Definition separator_at (lines : list string) (i : Z) : Prop :=
  exists line, line_at lines i = Some line /\ strings.TrimSpace line = "---".

(** [i] is the first separator strictly after line [s]. *)
Definition first_separator_after (lines : list string) (s i : Z) : Prop :=
  s < i /\ separator_at lines i /\
  forall j, s < j < i -> ~ separator_at lines j.

(** [Sscanf] has matched the line-number pattern and read [relLine]: the
    test [scanErr == nil && n == 1] of [getYamlErrorContextFromErr]. *)
Definition scan_matches (text : string) (relLine : Z) : Prop :=
  fmt.Sscanf text yamlLineFormat 0 =
    {| fmt.scan_n := 1; fmt.scan_err := ErrNil; fmt.scan_arg := relLine |}.

Definition scan_fails (text : string) : Prop :=
  ~ (fmt.scan_err (fmt.Sscanf text yamlLineFormat 0) = ErrNil /\
     fmt.scan_n (fmt.Sscanf text yamlLineFormat 0) = 1).

(** The fatal response to [req] with the one message [msg]. *)
Definition fatal_response (req : RunFunctionRequest) (msg : string) : RunFunctionResponse :=
  {| meta := Some {| tag := req_tag req; ttl_seconds := response.DefaultTTL |};
     desired := req_desired req;
     results := [{| severity := SEVERITY_FATAL; message := msg;
                    target := Some TARGET_COMPOSITE |}];
     context := req_context req |}.

(** [rsp] with one more result, fatal, with the message [msg]: what
    [response.Fatal] leaves. *)
Definition with_fatal (rsp : RunFunctionResponse) (msg : string) : RunFunctionResponse :=
  {| meta := meta rsp;
     desired := desired rsp;
     results := results rsp ++
       [{| severity := SEVERITY_FATAL; message := msg;
           target := Some TARGET_COMPOSITE |}];
     context := context rsp |}.

(** The stages before the decoder succeed on [req]: the input is read, the
    template found and parsed, its options (if any) applied without a
    panic, the request converted and the template executed to [data]. *)
Definition renders {Template} (E : Collaborators Template)
    (req : RunFunctionRequest) (data : string) : Prop :=
  exists in_ templates tmpl tmpl' reqMap,
    GetInput E req = inl in_ /\
    NewTemplateSourceGetter E (req_context req) in_ = inl templates /\
    Parse E (Delims in_) templates = inl tmpl /\
    ((Options in_ = None /\ tmpl' = tmpl) \/
     (exists options, Options in_ = Some options /\
        Option E tmpl options = (tmpl', Returned tt))) /\
    convertToMap E req = inl reqMap /\
    Execute E tmpl' reqMap = inl data.

(** The value of an annotation of a resource body,
    [metadata.annotations[key]]. *)
Definition annotation (body : Value) (key : string) : option Value :=
  match body with
  | VStruct fields =>
    match fields !! "metadata" with
    | Some (VStruct md) =>
      match md !! "annotations" with
      | Some (VStruct ann) => ann !! key
      | _ => None
      end
    | _ => None
    end
  | _ => None
  end.

(** The desired resources of a response. *)
Definition desired_resources (rsp : RunFunctionResponse) : gmap string Resource :=
  match desired rsp with
  | Some st => resources st
  | None => ∅
  end.

(** A result of the response shows the line of the diagnostic. *)
Definition surfaces (rsp : RunFunctionResponse) (ctx : YamlErrorContext) : Prop :=
  exists r, r ∈ results rsp /\ strings.Index (message r) (Context ctx) <> -1.

(** The readiness annotation of a decoded resource, [True] as YAML reads
    it bare or quoted, is turned into the readiness of the resource
    emitted under the same name, and the two annotations are removed from
    the emitted body. *)
Definition annotations_applied (decoded emitted : RunFunctionResponse) : Prop :=
  forall name r,
    desired_resources decoded !! name = Some r ->
    (annotation (resource r) annotationKeyReady = Some (VBool true) \/
     annotation (resource r) annotationKeyReady = Some (VString "True")) ->
    exists r',
      desired_resources emitted !! name = Some r' /\
      ready r' = READY_TRUE /\
      annotation (resource r') annotationKeyReady = None /\
      annotation (resource r') annotationKeyCompositionResourceName = None.

(** ** Instances used by the examples *)

Definition literal_template (t : string) : template.Template :=
  {| template.text := t; template.missingKey := template.mapInvalid |}.

Definition newline : string := String (ascii_of_nat 10) EmptyString.

(** The three lines of the text [a: 1], [---], [b: [1,2]. *)
Definition two_documents : list string := ["a: 1"; "---"; "b: [1,2"].

(** The rendered text of [two_documents]. *)
Definition two_documents_text : string :=
  "a: 1" +:+ newline +:+ "---" +:+ newline +:+ "b: [1,2" +:+ newline.

Definition flow_error : string :=
  "error converting YAML to JSON: yaml: line 1: did not find expected ',' or ']'".

(** A rendered text whose one document sets a desired resource, the body
    of which carries the readiness annotation. *)
Definition annotated_text : string :=
  "desired:" +:+ newline +:+
  "  resources:" +:+ newline +:+
  "    bucket:" +:+ newline +:+
  "      resource:" +:+ newline +:+
  "        apiVersion: v1" +:+ newline +:+
  "        kind: ConfigMap" +:+ newline +:+
  "        metadata:" +:+ newline +:+
  "          annotations:" +:+ newline +:+
  "            gotemplating.fn.crossplane.io/ready: True" +:+ newline.

(** The body of the resource of [annotated_text]; YAML reads the bare
    [True] as a boolean. *)
Definition annotated_body : Value :=
  VStruct {[ "apiVersion" := VString "v1";
             "kind" := VString "ConfigMap";
             "metadata" := VStruct {[ "annotations" :=
               VStruct {[ annotationKeyReady := VBool true ]} ]} ]}.

(** [annotated_text] decoded into [rsp]: the desired state is allocated if
    it is nil, the resource [bucket] is set in its map, and the readiness
    of the resource, which the text does not give, is the zero value. *)
Definition annotated_into (rsp : RunFunctionResponse) : RunFunctionResponse :=
  let bucket := {| resource := annotated_body; ready := READY_UNSPECIFIED |} in
  {| meta := meta rsp;
     desired :=
       Some match desired rsp with
            | Some st =>
              {| composite := composite st;
                 resources := <["bucket" := bucket]> (resources st) |}
            | None => {| composite := None; resources := {[ "bucket" := bucket ]} |}
            end;
     results := results rsp;
     context := context rsp |}.

(** A rendered text that is not YAML: a second mapping value on the
    second line. *)
Definition invalid_text : string :=
  "a: 1" +:+ newline +:+ "b: c: d" +:+ newline.

(** The lines of [invalid_text]. *)
Definition invalid_lines : list string := ["a: 1"; "b: c: d"; ""].

(** The error of the decoder on [invalid_text]. *)
Definition mapping_error : string :=
  "error converting YAML to JSON: yaml: line 2: mapping values are not allowed in this context".

(** What the YAML-or-JSON decoder does on the texts of the examples, its
    one call decoding the first document of the text into [rsp]:
    - on the empty text there is no document, the error is [EOF];
    - [a: 1], also as the first document of [two_documents_text], is a
      mapping with a key that the response does not have: it is ignored,
      nothing is written and there is no error;
    - [annotated_text] sets the desired resource [bucket];
    - [invalid_text] fails in the conversion of YAML to JSON, before
      anything is written.
    The sample takes any other text as the empty one. *)
Definition sample_decoder (data : string) (rsp : RunFunctionResponse)
  : option RunFunctionResponse * option string :=
  if String.eqb data "a: 1" || String.eqb data two_documents_text then
    (Some rsp, None)
  else if String.eqb data annotated_text then (Some (annotated_into rsp), None)
  else if String.eqb data invalid_text then (Some rsp, Some mapping_error)
  else (Some rsp, Some "EOF").

(** Collaborators for a request whose input selects the inline template
    [source] with the options [opts]: the template has no actions, so it
    executes to its own text. *)
Definition inline_collaborators (source : string) (opts : option (list string))
    (mReq : gmap string Value)
  : Collaborators template.Template :=
  {| GetInput := fun _ => inl {| Source := "Inline"; Delims := None; Options := opts |};
     NewTemplateSourceGetter := fun _ _ => inl source;
     Parse := fun _ t => inl (literal_template t);
     Option := template.Option;
     protojson_Marshal := fun _ => inl "{}";
     json_Unmarshal := fun _ => inl mReq;
     Execute := fun t _ => inl (template.text t);
     Decode := sample_decoder |}.

Definition empty_request : RunFunctionRequest :=
  {| req_tag := "tag"; req_observed := None; req_desired := None;
     req_input := None; req_context := None |}.

(** A string of decimal digits. *)
Fixpoint all_digits (s : string) : Prop :=
  match s with
  | EmptyString => True
  | String c s' => strconv.is_digit (byte_val c) = true /\ all_digits s'
  end.

(** The options that [text/template] recognizes. *)
Definition valid_option (opt : string) : bool :=
  String.eqb opt "missingkey=invalid" || String.eqb opt "missingkey=default"
  || String.eqb opt "missingkey=zero" || String.eqb opt "missingkey=error".

(** The panic of [setOption] on an option it refuses. *)
Definition option_panic (opt : string) : panic_value :=
  if String.eqb opt "" then PanicString "empty option string"
  else PanicString ("unrecognized option: " +:+ opt).

(** What a recognized option sets. *)
Definition option_action (opt : string) : template.missingKeyAction :=
  if String.eqb opt "missingkey=zero" then template.mapZeroValue
  else if String.eqb opt "missingkey=error" then template.mapError
  else template.mapInvalid.

(** The template after the recognized options [opts], set in order. *)
Definition with_options (t : template.Template) (opts : list string) : template.Template :=
  foldl (fun t opt => template.set_missingKey t (option_action opt)) t opts.

(** The stages before the conversion of the request succeed on [req] and
    leave the template [tmpl'], with its options (if any) applied. *)
Definition compiles {Template} (E : Collaborators Template)
    (req : RunFunctionRequest) (tmpl' : Template) : Prop :=
  exists in_ templates tmpl,
    GetInput E req = inl in_ /\
    NewTemplateSourceGetter E (req_context req) in_ = inl templates /\
    Parse E (Delims in_) templates = inl tmpl /\
    ((Options in_ = None /\ tmpl' = tmpl) \/
     (exists options, Options in_ = Some options /\
        Option E tmpl options = (tmpl', Returned tt))).

(** Collaborators whose reader of the input fails. *)
Definition no_input_collaborators : Collaborators template.Template :=
  {| GetInput := fun _ => inr "no input";
     NewTemplateSourceGetter := fun _ _ => inl "";
     Parse := fun _ t => inl (literal_template t);
     Option := template.Option;
     protojson_Marshal := fun _ => inl "{}";
     json_Unmarshal := fun _ => inl ∅;
     Execute := fun t _ => inl (template.text t);
     Decode := sample_decoder |}.

(** Collaborators for an inline template that reads a key the request map
    does not have: its execution fails under [missingkey=error] and gives
    the text otherwise. *)
Definition missing_key_collaborators (source : string) (opts : option (list string))
  : Collaborators template.Template :=
  {| GetInput := fun _ => inl {| Source := "Inline"; Delims := None; Options := opts |};
     NewTemplateSourceGetter := fun _ _ => inl source;
     Parse := fun _ t => inl (literal_template t);
     Option := template.Option;
     protojson_Marshal := fun _ => inl "{}";
     json_Unmarshal := fun _ => inl ∅;
     Execute := fun t _ =>
       match template.missingKey t with
       | template.mapError => inr "map has no entry for key"
       | _ => inl (template.text t)
       end;
     Decode := sample_decoder |}.

(** The ASCII white space: tab, newline, vertical tab, form feed, carriage
    return and space. *)
Definition ascii_space (c : ascii) : bool :=
  ((0x09 <=? byte_val c) && (byte_val c <=? 0x0d)) || (byte_val c =? 0x20).

Fixpoint all_ascii_space (s : string) : Prop :=
  match s with
  | EmptyString => True
  | String c s' => ascii_space c = true /\ all_ascii_space s'
  end.

(** * Properties *)

Lemma wrap_id x : GoInt.in_range x -> GoInt.wrap x = x.
Proof.
  unfold GoInt.in_range, GoInt.wrap, GoInt.min_int, GoInt.max_int. intros H.
  rewrite Z.mod_small; lia.
Qed.

Lemma wrap_in_range x : GoInt.in_range (GoInt.wrap x).
Proof.
  unfold GoInt.in_range, GoInt.wrap, GoInt.min_int, GoInt.max_int.
  pose proof (Z.mod_pos_bound (x + 2 ^ 63) (2 ^ 64)). lia.
Qed.

Lemma len_nonneg {A} (l : list A) : 0 <= len l.
Proof. unfold len. lia. Qed.

Lemma index_in_range {A} (l : list A) i :
  0 <= i < len l -> exists x, index l i = Returned x /\ l !! Z.to_nat i = Some x.
Proof.
  intros H. unfold index.
  destruct (Z.leb_spec 0 i); [|lia]. destruct (Z.ltb_spec i (len l)); [|lia].
  simpl. destruct (l !! Z.to_nat i) as [x|] eqn:Hl; [eauto|].
  apply lookup_ge_None in Hl. unfold len in *. lia.
Qed.

Lemma index_out_of_range {A} (l : list A) i :
  ~ (0 <= i < len l) -> index l i = Panicked (IndexOutOfRange i (length l)).
Proof.
  intros H. unfold index.
  destruct (Z.leb_spec 0 i); destruct (Z.ltb_spec i (len l)); simpl; try reflexivity.
  lia.
Qed.

Lemma separator_at_iff lines i line :
  1 <= i -> lines !! Z.to_nat (i - 1) = Some line ->
  (separator_at lines i <-> strings.TrimSpace line = "---").
Proof.
  intros Hi Hl. unfold separator_at, line_at.
  destruct (Z.leb_spec 1 i); [|lia]. rewrite Hl. split.
  - intros (l' & [= <-] & H'). exact H'.
  - eauto.
Qed.

(** The loop from [i] on, for a start line [s >= 1]: it returns, reads
    inside the slice only, and gives the first separator at or after [i]
    and strictly after [s], or [s] when there is none. *)
Lemma moveToNextDoc_loop_spec fuel : forall lines s i,
  slice_ok lines -> 1 <= s <= i ->
  (Z.to_nat (len lines + 1 - i) < fuel)%nat ->
  exists ks r,
    moveToNextDoc_loop fuel lines s i = Some (ks, Returned r) /\
    Forall (fun k => 0 <= k < len lines) ks /\
    ((s < r /\ i <= r /\ separator_at lines r /\
      forall j, s < j -> i <= j < r -> ~ separator_at lines j) \/
     (r = s /\ forall j, s < j -> i <= j -> ~ separator_at lines j)).
Proof.
  induction fuel as [|fuel IH]; intros lines s i Hok Hs Hfuel; [lia|].
  simpl. unfold slice_ok, GoInt.max_int in Hok.
  destruct (Z.leb_spec i (len lines)) as [Hle|Hgt].
  - assert (Hsub : GoInt.sub i 1 = i - 1).
    { apply wrap_id. unfold GoInt.in_range, GoInt.min_int, GoInt.max_int. lia. }
    assert (Hadd : GoInt.add i 1 = i + 1).
    { apply wrap_id. unfold GoInt.in_range, GoInt.min_int, GoInt.max_int. lia. }
    rewrite Hsub, Hadd.
    destruct (index_in_range lines (i - 1)) as (line & -> & Hline); [lia|].
    pose proof (separator_at_iff lines i line ltac:(lia) Hline) as Hsep.
    destruct (String.eqb_spec (strings.TrimSpace line) "---") as [Heq|Hne];
      destruct (Z.ltb_spec s i) as [Hlt|Hge]; simpl.
    + exists [i - 1], i. split; [reflexivity|]. split; [constructor; [lia|constructor]|].
      left. repeat split; try lia. apply Hsep, Heq.
    + destruct (IH lines s (i + 1)) as (ks & r & -> & Hks & Hr); [done|lia|lia|].
      exists ((i - 1) :: ks), r. split; [reflexivity|]. split; [constructor; [lia|done]|].
      destruct Hr as [(H1 & H2 & H3 & H4)|(H1 & H2)].
      * left. repeat split; try lia; [done|]. intros j Hj1 Hj2. apply H4; lia.
      * right. split; [done|]. intros j Hj1 Hj2. apply H2; lia.
    + destruct (IH lines s (i + 1)) as (ks & r & -> & Hks & Hr); [done|lia|lia|].
      exists ((i - 1) :: ks), r. split; [reflexivity|]. split; [constructor; [lia|done]|].
      assert (Hni : ~ separator_at lines i) by (rewrite Hsep; done).
      destruct Hr as [(H1 & H2 & H3 & H4)|(H1 & H2)].
      * left. repeat split; try lia; [done|]. intros j Hj1 Hj2.
        destruct (Z.eq_dec j i) as [->|]; [done|apply H4; lia].
      * right. split; [done|]. intros j Hj1 Hj2.
        destruct (Z.eq_dec j i) as [->|]; [done|apply H2; lia].
    + destruct (IH lines s (i + 1)) as (ks & r & -> & Hks & Hr); [done|lia|lia|].
      exists ((i - 1) :: ks), r. split; [reflexivity|]. split; [constructor; [lia|done]|].
      destruct Hr as [(H1 & H2 & H3 & H4)|(H1 & H2)].
      * left. repeat split; try lia; [done|]. intros j Hj1 Hj2. apply H4; lia.
      * right. split; [done|]. intros j Hj1 Hj2. apply H2; lia.
  - exists [], s. split; [reflexivity|]. split; [constructor|].
    right. split; [reflexivity|]. intros j Hj1 Hj2 (line & Hl & _).
    unfold line_at in Hl. destruct (Z.leb_spec 1 j); [|done].
    apply lookup_lt_Some in Hl. unfold len in *. lia.
Qed.

Lemma moveToNextDoc_run_spec lines s :
  slice_ok lines -> 1 <= s ->
  exists ks r,
    moveToNextDoc_run lines s = Some (ks, Returned r) /\
    Forall (fun k => 0 <= k < len lines) ks /\
    (first_separator_after lines s r \/
     (r = s /\ forall j, s < j -> ~ separator_at lines j)).
Proof.
  intros Hok Hs. unfold moveToNextDoc_run.
  destruct (moveToNextDoc_loop_spec (S (length lines)) lines s s) as (ks & r & Hrun & Hks & Hr);
    [done|lia|unfold len; lia|].
  exists ks, r. split; [done|]. split; [done|].
  destruct Hr as [(H1 & H2 & H3 & H4)|(H1 & H2)].
  - left. split; [done|]. split; [done|]. intros j Hj. apply H4; lia.
  - right. split; [done|]. intros j Hj. apply H2; lia.
Qed.

Lemma moveToNextDoc_run_nonpositive lines s :
  len lines <= GoInt.max_int -> GoInt.in_range s -> s <= 0 ->
  moveToNextDoc_run lines s =
    Some ([GoInt.sub s 1], Panicked (IndexOutOfRange (GoInt.sub s 1) (length lines))).
Proof.
  intros Hok Hr Hs. unfold moveToNextDoc_run. simpl.
  pose proof (len_nonneg lines).
  destruct (Z.leb_spec s (len lines)); [|lia].
  rewrite index_out_of_range; [reflexivity|].
  unfold GoInt.in_range, GoInt.min_int, GoInt.max_int in *.
  destruct (Z.eq_dec s (- 2 ^ 63)) as [->|Hne].
  - replace (GoInt.sub (- 2 ^ 63) 1) with (2 ^ 63 - 1) by (vm_compute; reflexivity). lia.
  - unfold GoInt.sub. rewrite wrap_id; [lia|].
    unfold GoInt.in_range, GoInt.min_int, GoInt.max_int. lia.
Qed.

(** C5 (corrected).  For every slice of lines and every start line
    [s >= 1], [moveToNextDoc] returns: the smallest line number strictly
    greater than [s] whose line, trimmed of white space, is the document
    separator [---], when there is one; and [s] itself, unchanged, when no
    line after [s] is a separator.  A separator at line [s] itself is
    never selected. *)
Theorem moveToNextDoc_next_separator lines s :
  slice_ok lines -> 1 <= s ->
  exists r,
    moveToNextDoc lines s = Some (Returned r) /\
    (first_separator_after lines s r \/
     (r = s /\ forall j, s < j -> ~ separator_at lines j)).
Proof.
  intros Hok Hs.
  destruct (moveToNextDoc_run_spec lines s Hok Hs) as (ks & r & Hrun & _ & Hr).
  exists r. unfold moveToNextDoc. rewrite Hrun. split; [reflexivity|exact Hr].
Qed.

Lemma slice_ok_small {A} (l : list A) : (length l < 1000)%nat -> slice_ok l.
Proof. unfold slice_ok, len, GoInt.max_int. lia. Qed.

Lemma moveToNextDoc_next_separator_witness :
  exists r,
    moveToNextDoc two_documents 1 = Some (Returned r) /\
    (first_separator_after two_documents 1 r \/
     (r = 1 /\ forall j, 1 < j -> ~ separator_at two_documents j)).
Proof.
  apply (moveToNextDoc_next_separator two_documents 1).
  - unfold slice_ok. vm_compute. reflexivity.
  - lia.
Defined.

Lemma moveToNextDoc_no_separator :
  ~ (exists i, moveToNextDoc ["a: 1"; "b: 2"] 1 = Some (Returned i) /\
               first_separator_after ["a: 1"; "b: 2"] 1 i).
Proof.
  intros (i & Hrun & Hlt & _). vm_compute in Hrun. injection Hrun as <-. lia.
Qed.

(** C9.  [moveToNextDoc] is index-safe only from a start line [s >= 1]:
    with start line 0 it reads index [-1] of every slice, the empty one
    included, and panics with that index out of range; with a start line
    [s >= 1] it reads only indices from 0 to [len(lines) - 1] and
    returns. *)
Theorem moveToNextDoc_index_safety :
  (forall lines,
     moveToNextDoc_reads lines 0 = Some [-1] /\
     moveToNextDoc lines 0 = Some (Panicked (IndexOutOfRange (-1) (length lines)))) /\
  (forall lines s, slice_ok lines -> 1 <= s ->
     exists ks r,
       moveToNextDoc_reads lines s = Some ks /\
       Forall (fun k => 0 <= k <= len lines - 1) ks /\
       moveToNextDoc lines s = Some (Returned r)).
Proof.
  split.
  - intros lines. unfold moveToNextDoc_reads, moveToNextDoc.
    unfold moveToNextDoc_run. cbn [moveToNextDoc_loop].
    pose proof (len_nonneg lines).
    destruct (Z.leb_spec 0 (len lines)); [|lia].
    change (GoInt.sub 0 1) with (-1).
    rewrite index_out_of_range by lia. split; reflexivity.
  - intros lines s Hok Hs.
    destruct (moveToNextDoc_run_spec lines s Hok Hs) as (ks & r & Hrun & Hks & _).
    exists ks, r. unfold moveToNextDoc_reads, moveToNextDoc. rewrite Hrun.
    split; [reflexivity|]. split; [|reflexivity].
    eapply Forall_impl; [exact Hks|]. simpl. intros k Hk. lia.
Qed.

(** *** Decimal numerals *)

Lemma byte_val_digit_char d : 0 <= d <= 9 -> byte_val (strconv.digit_char d) = 48 + d.
Proof.
  intros Hd. unfold byte_val, strconv.digit_char.
  rewrite N_ascii_embedding; lia.
Qed.

Lemma is_digit_digit_char d :
  0 <= d <= 9 -> strconv.is_digit (byte_val (strconv.digit_char d)) = true.
Proof.
  intros Hd. rewrite byte_val_digit_char by done. unfold strconv.is_digit.
  apply andb_true_iff. split; apply Z.leb_le; lia.
Qed.

Lemma append_cons c (a b : string) : String c a +:+ b = String c (a +:+ b).
Proof. reflexivity. Qed.

Lemma append_nil_l (a : string) : EmptyString +:+ a = a.
Proof. reflexivity. Qed.

Lemma append_nil_r (a : string) : a +:+ EmptyString = a.
Proof. induction a as [|x a IH]; [reflexivity|]. by rewrite append_cons, IH. Qed.

Lemma append_assoc (a b c : string) : (a +:+ b) +:+ c = a +:+ (b +:+ c).
Proof.
  induction a as [|x a IH]; [reflexivity|]. by rewrite !append_cons, IH.
Qed.

Lemma length_append (a b : string) :
  String.length (a +:+ b) = (String.length a + String.length b)%nat.
Proof.
  induction a as [|x a IH]; [reflexivity|]. rewrite append_cons. simpl. by rewrite IH.
Qed.

Lemma all_digits_app a b : all_digits a -> all_digits b -> all_digits (a +:+ b).
Proof.
  induction a as [|x a IH]; [done|]. rewrite append_cons. simpl.
  intros [? ?] ?. split; auto.
Qed.

Lemma parse_digits_app a b acc :
  strconv.parse_digits (a +:+ b) acc =
  match strconv.parse_digits a acc with
  | Some v => strconv.parse_digits b v
  | None => None
  end.
Proof.
  revert acc. induction a as [|x a IH]; intros acc; [reflexivity|].
  rewrite append_cons. simpl.
  destruct (strconv.is_digit (byte_val x)); [apply IH|reflexivity].
Qed.

(** The digits written for [u] with enough fuel: a non-empty numeral, at
    most [fuel] digits long, whose value is [u]. *)
Lemma format_digits_spec fuel : forall u acc,
  0 <= u < 10 ^ Z.of_nat fuel -> (0 < fuel)%nat ->
  exists c ds,
    strconv.format_digits fuel u acc = String c ds +:+ acc /\
    all_digits (String c ds) /\
    (String.length (String c ds) <= fuel)%nat /\
    strconv.parse_digits (String c ds) 0 = Some u.
Proof.
  induction fuel as [|fuel IH]; intros u acc Hu Hf; [lia|].
  simpl strconv.format_digits.
  assert (Hd : 0 <= u mod 10 <= 9) by (pose proof (Z.mod_pos_bound u 10); lia).
  destruct (Z.ltb_spec u 10) as [Hlt|Hge].
  - exists (strconv.digit_char (u mod 10)), EmptyString.
    split; [reflexivity|]. split; [split; [by apply is_digit_digit_char|done]|].
    split; [simpl; lia|]. simpl. rewrite is_digit_digit_char by done.
    rewrite byte_val_digit_char by done. f_equal. rewrite Z.mod_small; lia.
  - destruct fuel as [|fuel']; [simpl in Hu; lia|].
    destruct (IH (u / 10) (String (strconv.digit_char (u mod 10)) acc))
      as (c & ds & Heq & Hall & Hlen & Hval); [|lia|].
    { split; [apply Z.div_pos; lia|].
      apply Z.div_lt_upper_bound; [lia|].
      replace (Z.of_nat (S (S fuel'))) with (Z.succ (Z.of_nat (S fuel'))) in Hu by lia.
      rewrite Z.pow_succ_r in Hu by lia. lia. }
    exists c, (ds +:+ String (strconv.digit_char (u mod 10)) EmptyString).
    rewrite <- append_cons.
    split; [|split; [|split]].
    + rewrite Heq. by rewrite append_assoc.
    + apply all_digits_app; [done|]. split; [by apply is_digit_digit_char|done].
    + rewrite length_append. simpl in *. lia.
    + rewrite parse_digits_app, Hval. simpl.
      rewrite is_digit_digit_char by done. rewrite byte_val_digit_char by done.
      f_equal. pose proof (Z.div_mod u 10). lia.
Qed.

Lemma FormatUint_spec u :
  0 <= u ->
  exists c ds,
    strconv.FormatUint u = String c ds /\
    all_digits (String c ds) /\
    (String.length (String c ds) <= S (Z.to_nat (Z.log2 u)))%nat /\
    strconv.parse_digits (String c ds) 0 = Some u.
Proof.
  intros Hu. unfold strconv.FormatUint.
  destruct (format_digits_spec (S (Z.to_nat (Z.log2 u))) u EmptyString)
    as (c & ds & Heq & H); [|lia|].
  - split; [done|].
    destruct (Z.eq_dec u 0) as [->|Hne]; [simpl; lia|].
    pose proof (Z.log2_spec u ltac:(lia)) as [_ Hlt].
    pose proof (Z.log2_nonneg u).
    replace (Z.of_nat (S (Z.to_nat (Z.log2 u)))) with (Z.succ (Z.log2 u)) by lia.
    eapply Z.lt_le_trans; [exact Hlt|].
    apply Z.pow_le_mono_l. lia.
  - exists c, ds. split; [|exact H]. by rewrite Heq, append_nil_r.
Qed.

Lemma digit_byte_facts c :
  strconv.is_digit (byte_val c) = true ->
  (forall t, fmt.getRune (String c t) = (byte_val c, t)) /\
  fmt.isSpace (byte_val c) = false /\
  (byte_val c =? fmt.eof) = false /\
  (byte_val c =? 0x0d) = false /\
  (byte_val c =? 0x0a) = false /\
  Ascii.eqb c "+" = false /\
  Ascii.eqb c "-" = false.
Proof.
  destruct c as [[] [] [] [] [] [] [] []]; intros H; vm_compute in H;
    try discriminate H; repeat split.
Qed.

Lemma accept_digits_numeral ds c rest :
  all_digits ds -> strconv.is_digit (byte_val c) = false ->
  fmt.accept_digits (ds +:+ String c rest) = (ds, String c rest).
Proof.
  intros Hds Hc. induction ds as [|d ds IH].
  - rewrite append_nil_l. simpl. by rewrite Hc.
  - destruct Hds as [Hd Hds]. rewrite append_cons. simpl. rewrite Hd.
    by rewrite (IH Hds).
Qed.

(** [FormatInt] writes an optional minus sign and a numeral that
    [ParseInt] reads back. *)
Lemma FormatInt_spec N :
  GoInt.in_range N ->
  exists sgn c ds,
    strconv.FormatInt N = sgn +:+ String c ds /\
    (sgn = "" \/ sgn = "-") /\
    all_digits (String c ds) /\
    (String.length (strconv.FormatInt N) <= 66)%nat /\
    strconv.ParseInt (strconv.FormatInt N) = (N, None).
Proof.
  intros HN. unfold GoInt.in_range, GoInt.min_int, GoInt.max_int in HN.
  assert (Hlog : forall u, 0 <= u <= 2 ^ 63 -> (S (Z.to_nat (Z.log2 u)) <= 64)%nat).
  { intros u Hu. destruct (Z.eq_dec u 0) as [->|]; [simpl; lia|].
    assert (Z.log2 u <= Z.log2 (2 ^ 63)) by (apply Z.log2_le_mono; lia).
    rewrite Z.log2_pow2 in H by lia. pose proof (Z.log2_nonneg u). lia. }
  unfold strconv.FormatInt. destruct (Z.ltb_spec N 0) as [Hneg|Hpos].
  - destruct (FormatUint_spec (- N)) as (c & ds & Heq & Hall & Hlen & Hval); [lia|].
    exists "-", c, ds. rewrite Heq.
    split; [reflexivity|]. split; [by right|]. split; [done|].
    split. { specialize (Hlog (- N) ltac:(lia)). simpl in *. lia. }
    unfold strconv.ParseInt. change (Ascii.eqb "-" "-") with true.
    change (Ascii.eqb "-" "+") with false. cbn [orb negb andb].
    unfold strconv.ParseUint. rewrite Hval.
    destruct (Z.leb_spec (2 ^ 64) (- N)); [lia|].
    destruct (Z.ltb_spec (2 ^ 63) (- N)); [lia|].
    f_equal. lia.
  - destruct (FormatUint_spec N) as (c & ds & Heq & Hall & Hlen & Hval); [lia|].
    exists "", c, ds. rewrite Heq.
    split; [reflexivity|]. split; [by left|]. split; [done|].
    split. { specialize (Hlog N ltac:(lia)). simpl in *. lia. }
    destruct Hall as [Hc Hds].
    destruct (digit_byte_facts c Hc) as (_ & _ & _ & _ & _ & Hplus & Hminus).
    unfold strconv.ParseInt. rewrite Hplus, Hminus. cbn [orb negb andb].
    unfold strconv.ParseUint. rewrite Hval.
    destruct (Z.leb_spec (2 ^ 64) N); [lia|].
    destruct (Z.leb_spec (2 ^ 63) N); [lia|].
    reflexivity.
Qed.

(** *** Scanning the line-number pattern *)

Lemma doScanf_Lit b ds c t n a :
  byte_val c = b -> b < 0x80 ->
  fmt.doScanf (fmt.Lit b :: ds) (String c t) n a = fmt.doScanf ds t n a.
Proof.
  intros Hb Hlt. cbn [fmt.doScanf].
  assert (Hget : fmt.getRune (String c t) = (b, t)).
  { unfold fmt.getRune, utf8.DecodeRuneInString. rewrite Hb.
    unfold utf8.first. destruct (Z.ltb_spec b 0x80); [|lia]. reflexivity. }
  rewrite Hget. assert (0 <= b) by (subst b; unfold byte_val; lia).
  destruct (Z.eqb_spec b fmt.eof); [unfold fmt.eof in *; lia|].
  by rewrite Z.eqb_refl.
Qed.

(** One space of the input in front of a rune that is not a space. *)
Lemma doScanf_Blank ds c t n a :
  byte_val c < 0x80 -> fmt.isSpace (byte_val c) = false ->
  fmt.doScanf (fmt.Blank :: ds) (String " " (String c t)) n a =
  fmt.doScanf ds (String c t) n a.
Proof.
  intros Hlt Hsp.
  assert (Hget : fmt.getRune (String c t) = (byte_val c, t)).
  { unfold fmt.getRune, utf8.DecodeRuneInString.
    unfold utf8.first. destruct (Z.ltb_spec (byte_val c) 0x80); [|lia]. reflexivity. }
  assert (0 <= byte_val c) by (unfold byte_val; lia).
  cbn [fmt.doScanf].
  change (fmt.getRune (String " " (String c t))) with (0x20, String c t).
  change (fmt.isSpace 0x20) with true. change (0x20 =? fmt.eof) with false.
  change (0x20 =? 0x0a) with false. cbn [negb andb].
  f_equal. cbn [String.length fmt.skip_blanks].
  change (fmt.getRune (String " " (String c t))) with (0x20, String c t).
  change (0x20 =? fmt.eof) with false. change (fmt.isSpace 0x20) with true.
  change (0x20 =? 0x0a) with false. cbn [negb andb].
  rewrite Hget, Hsp.
  destruct (Z.eqb_spec (byte_val c) fmt.eof); reflexivity.
Qed.

Lemma getRune_ascii c t :
  byte_val c < 0x80 -> fmt.getRune (String c t) = (byte_val c, t).
Proof.
  intros Hlt. unfold fmt.getRune, utf8.DecodeRuneInString, utf8.first.
  destruct (Z.ltb_spec (byte_val c) 0x80); [|lia]. reflexivity.
Qed.

Lemma byte_val_nonneg c : 0 <= byte_val c.
Proof. unfold byte_val. lia. Qed.

Lemma SkipSpace_nonspace fuel c t :
  byte_val c < 0x80 -> fmt.isSpace (byte_val c) = false ->
  fmt.SkipSpace (S fuel) (String c t) = inl (String c t).
Proof.
  intros Hlt Hsp. cbn [fmt.SkipSpace]. rewrite getRune_ascii by done.
  pose proof (byte_val_nonneg c).
  destruct (Z.eqb_spec (byte_val c) fmt.eof) as [He|_]; [unfold fmt.eof in He; lia|].
  destruct (Z.eqb_spec (byte_val c) 0x0d) as [He|_];
    [rewrite He in Hsp; discriminate Hsp|].
  destruct (Z.eqb_spec (byte_val c) 0x0a) as [He|_];
    [rewrite He in Hsp; discriminate Hsp|].
  cbn [andb]. by rewrite Hsp.
Qed.

Lemma digit_byte_ascii c : strconv.is_digit (byte_val c) = true -> byte_val c < 0x80.
Proof.
  unfold strconv.is_digit. intros [_ H%Z.leb_le]%andb_true_iff. lia.
Qed.

(** The verb [%d] in front of a numeral that ends at a colon. *)
Lemma doScanf_VerbD_numeral D sgn c ds N rest a :
  sgn = "" \/ sgn = "-" ->
  all_digits (String c ds) ->
  strconv.ParseInt (sgn +:+ String c ds) = (N, None) ->
  fmt.doScanf (fmt.VerbD :: D) (sgn +:+ String c ds +:+ String ":" rest) 0 a =
  fmt.doScanf D (String ":" rest) 1 N.
Proof.
  intros Hsgn Hall Hparse.
  pose proof Hall as [Hc _].
  destruct (digit_byte_facts c Hc) as (_ & Hsp & _ & _ & _ & Hplus & Hminus).
  pose proof (digit_byte_ascii c Hc) as Hascii.
  assert (Hdigits : fmt.accept_digits (String c ds +:+ String ":" rest)
                    = (String c ds, String ":" rest)).
  { by apply accept_digits_numeral. }
  destruct Hsgn as [-> | ->].
  - rewrite append_nil_l in *. rewrite append_cons in *.
    cbn [fmt.doScanf]. rewrite SkipSpace_nonspace by done.
    change (1 <=? 0) with false. cbv iota.
    unfold fmt.scanInt. rewrite SkipSpace_nonspace by done.
    unfold fmt.accept_sign. rewrite Hplus, Hminus. cbn [orb].
    rewrite Hdigits. rewrite append_nil_l, Hparse. reflexivity.
  - rewrite !append_cons, !append_nil_l in *.
    cbn [fmt.doScanf]. rewrite SkipSpace_nonspace by (vm_compute; reflexivity).
    change (1 <=? 0) with false. cbv iota.
    unfold fmt.scanInt. rewrite SkipSpace_nonspace by (vm_compute; reflexivity).
    unfold fmt.accept_sign. change (Ascii.eqb "-" "+" || Ascii.eqb "-" "-") with true.
    cbv iota. rewrite Hdigits. rewrite append_cons, append_nil_l, Hparse. reflexivity.
Qed.

Lemma Sprintf_yamlLineFormat N :
  fmt.Sprintf yamlLineFormat N =
  "error converting YAML to JSON: yaml: line " +:+ strconv.FormatInt N +:+ ":".
Proof. reflexivity. Qed.

(** The text of a decode error of the parser, as it is written for the
    relative line [N], matches the pattern, and [N] is read back. *)
Lemma scan_matches_canonical N rest :
  GoInt.in_range N ->
  scan_matches (fmt.Sprintf yamlLineFormat N +:+ rest) N.
Proof.
  intros HN. unfold scan_matches, fmt.Sscanf.
  rewrite Sprintf_yamlLineFormat.
  destruct (FormatInt_spec N HN) as (sgn & c & ds & Heq & Hsgn & Hall & _ & Hparse).
  rewrite Heq in *. clear Heq.
  rewrite !append_assoc. rewrite (append_cons ":"), append_nil_l.
  set (x := sgn +:+ String c ds +:+ String ":" rest).
  assert (Hx : exists c0 t, x = String c0 t /\ byte_val c0 < 0x80 /\
                            fmt.isSpace (byte_val c0) = false).
  { subst x. pose proof Hall as [Hc _]. destruct Hsgn as [-> | ->].
    - rewrite append_nil_l, append_cons. eexists _, _. split; [reflexivity|].
      split; [by apply digit_byte_ascii|]. by apply digit_byte_facts.
    - rewrite !append_cons. eexists _, _. split; [reflexivity|].
      split; vm_compute; reflexivity. }
  destruct Hx as (c0 & t & Hx & Hc0 & Hsp0).
  let d := eval vm_compute in (fmt.directives yamlLineFormat) in
  change (fmt.directives yamlLineFormat) with d.
  rewrite !append_cons, append_nil_l. rewrite Hx.
  repeat first
    [ rewrite doScanf_Lit by reflexivity
    | rewrite doScanf_Blank by (first [reflexivity | assumption]) ].
  rewrite <- Hx. subst x.
  rewrite (doScanf_VerbD_numeral _ sgn c ds N rest 0 Hsgn Hall Hparse).
  rewrite doScanf_Lit by reflexivity. reflexivity.
Qed.

(** *** Prefixes, [Index] and slicing *)

Lemma strlen_nonneg s : 0 <= strlen s.
Proof. unfold strlen. lia. Qed.

Lemma strlen_append a b : strlen (a +:+ b) = strlen a + strlen b.
Proof. unfold strlen. rewrite length_append. lia. Qed.

Lemma HasPrefix_append p r : strings.HasPrefix (p +:+ r) p = true.
Proof.
  induction p as [|c p IH]; [reflexivity|]. rewrite append_cons. simpl.
  by rewrite Ascii.eqb_refl, IH.
Qed.

Lemma HasPrefix_length s p : strings.HasPrefix s p = true -> strlen p <= strlen s.
Proof.
  revert s. induction p as [|c p IH]; intros s H.
  - apply strlen_nonneg.
  - destruct s as [|d s]; [discriminate H|]. simpl in H.
    apply andb_true_iff in H as [_ H]. apply IH in H. unfold strlen in *. simpl. lia.
Qed.

Lemma Index_from_prefix s p i : strings.HasPrefix s p = true -> strings.Index_from s p i = i.
Proof. intros H. destruct s; simpl; by rewrite H. Qed.

Lemma Index_from_bounds s p : forall i idx,
  strings.Index_from s p i = idx -> idx <> -1 -> 0 <= i ->
  i <= idx /\ idx - i + strlen p <= strlen s.
Proof.
  induction s as [|c s IH]; intros i idx Hidx Hne Hi.
  - simpl in Hidx. destruct (strings.HasPrefix "" p) eqn:Hp; [|lia].
    apply HasPrefix_length in Hp. lia.
  - simpl in Hidx. destruct (strings.HasPrefix (String c s) p) eqn:Hp.
    + apply HasPrefix_length in Hp. lia.
    + apply IH in Hidx; [|done|lia]. unfold strlen in *. simpl. lia.
Qed.

Lemma string_drop_append p r : string_drop (String.length p) (p +:+ r) = r.
Proof. induction p as [|c p IH]; [reflexivity|]. rewrite append_cons. simpl. exact IH. Qed.

(** *** [getYamlErrorContextFromErr] *)

Lemma bind_Returned {A B} (f : A -> outcome B) (a : A) : (Returned a ≫= f) = f a.
Proof. reflexivity. Qed.

(** When the pattern matches, the function returns what its two blocks
    compute: the message [m] of the first and the line of the second. *)
Lemma getYamlErrorContextFromErr_matched text N s lines m :
  scan_matches text N ->
  (let prefix := fmt.Sprintf yamlLineFormat N in
   let idx := strings.Index text prefix in
   if negb (idx =? -1) then
     tail ← slice_from text (GoInt.add idx (strlen prefix));
     Returned (strings.TrimSpace tail)
   else Returned "") = Returned m ->
  getYamlErrorContextFromErr (Err text) s lines =
    let absLine := GoInt.add s N in
    if (GoInt.sub absLine 1 <? len lines) && (0 <=? GoInt.sub absLine 1) then
      line ← index lines (GoInt.sub absLine 1);
      Returned {| RelLine := N; AbsLine := absLine; Message := m; Context := line |}
    else Returned YamlErrorContext_zero.
Proof.
  intros Hscan Hmsg. unfold getYamlErrorContextFromErr.
  change (Error_ (Err text)) with (Returned text). rewrite !bind_Returned.
  unfold scan_matches in Hscan. rewrite Hscan.
  cbn [fmt.scan_n fmt.scan_err fmt.scan_arg]. change (1 =? 1) with true. cbv iota.
  cbv zeta in Hmsg. rewrite Hmsg. rewrite bind_Returned. reflexivity.
Qed.

Lemma message_block_canonical N rest :
  GoInt.in_range N ->
  (let text := fmt.Sprintf yamlLineFormat N +:+ rest in
   let prefix := fmt.Sprintf yamlLineFormat N in
   let idx := strings.Index text prefix in
   if negb (idx =? -1) then
     tail ← slice_from text (GoInt.add idx (strlen prefix));
     Returned (strings.TrimSpace tail)
   else Returned "") = Returned (strings.TrimSpace rest).
Proof.
  intros HN. cbv zeta. unfold strings.Index.
  rewrite Index_from_prefix by apply HasPrefix_append.
  change (negb (0 =? -1)) with true. cbv iota.
  set (prefix := fmt.Sprintf yamlLineFormat N).
  assert (Hlen : strlen prefix <= 200).
  { subst prefix. rewrite Sprintf_yamlLineFormat, !strlen_append.
    destruct (FormatInt_spec N HN) as (_ & _ & _ & _ & _ & _ & Hl & _).
    unfold strlen at 2. change (strlen "error converting YAML to JSON: yaml: line ") with 42.
    change (strlen ":") with 1. lia. }
  pose proof (strlen_nonneg prefix).
  assert (Hadd : GoInt.add 0 (strlen prefix) = strlen prefix).
  { apply wrap_id. unfold GoInt.in_range, GoInt.min_int, GoInt.max_int. lia. }
  rewrite Hadd. unfold slice_from. rewrite strlen_append.
  pose proof (strlen_nonneg rest).
  destruct (Z.leb_spec 0 (strlen prefix)); [|lia].
  destruct (Z.leb_spec (strlen prefix) (strlen prefix + strlen rest)); [|lia].
  cbn [andb]. rewrite bind_Returned. unfold strlen. rewrite Nat2Z.id.
  by rewrite string_drop_append.
Qed.

Lemma message_block_returns text N :
  string_ok text ->
  exists m,
    (let prefix := fmt.Sprintf yamlLineFormat N in
     let idx := strings.Index text prefix in
     if negb (idx =? -1) then
       tail ← slice_from text (GoInt.add idx (strlen prefix));
       Returned (strings.TrimSpace tail)
     else Returned "") = Returned m.
Proof.
  intros Hok. cbv zeta.
  set (prefix := fmt.Sprintf yamlLineFormat N).
  destruct (Z.eqb_spec (strings.Index text prefix) (-1)) as [Heq|Hne]; [by eexists|].
  cbn [negb].
  destruct (Index_from_bounds text prefix 0 _ eq_refl Hne ltac:(lia)) as [H0 Hb].
  fold (strings.Index text prefix) in *.
  pose proof (strlen_nonneg prefix). unfold string_ok, GoInt.max_int in Hok.
  assert (Hadd : GoInt.add (strings.Index text prefix) (strlen prefix)
                 = strings.Index text prefix + strlen prefix).
  { apply wrap_id. unfold GoInt.in_range, GoInt.min_int, GoInt.max_int. lia. }
  rewrite Hadd. unfold slice_from.
  destruct (Z.leb_spec 0 (strings.Index text prefix + strlen prefix)); [|lia].
  destruct (Z.leb_spec (strings.Index text prefix + strlen prefix) (strlen text)); [|lia].
  by eexists.
Qed.

Lemma line_in_bounds lines s N :
  slice_ok lines -> 1 <= s + N <= len lines ->
  GoInt.add s N = s + N /\
  GoInt.sub (s + N) 1 = s + N - 1 /\
  exists line, line_at lines (s + N) = Some line /\
               index lines (s + N - 1) = Returned line.
Proof.
  intros Hok Hb. unfold slice_ok, GoInt.max_int in Hok.
  split; [|split].
  - apply wrap_id. unfold GoInt.in_range, GoInt.min_int, GoInt.max_int. lia.
  - apply wrap_id. unfold GoInt.in_range, GoInt.min_int, GoInt.max_int. lia.
  - destruct (index_in_range lines (s + N - 1)) as (line & Hi & Hl); [lia|].
    exists line. split; [|done]. unfold line_at.
    destruct (Z.leb_spec 1 (s + N)); [done|lia].
Qed.

Lemma getYamlErrorContextFromErr_canonical N s lines rest :
  GoInt.in_range N -> slice_ok lines -> 1 <= s + N <= len lines ->
  exists line,
    line_at lines (s + N) = Some line /\
    getYamlErrorContextFromErr (Err (fmt.Sprintf yamlLineFormat N +:+ rest)) s lines =
      Returned {| RelLine := N; AbsLine := s + N;
                  Message := strings.TrimSpace rest; Context := line |}.
Proof.
  intros HN Hok Hb.
  destruct (line_in_bounds lines s N Hok Hb) as (Hadd & Hsub & line & Hline & Hidx).
  exists line. split; [done|].
  rewrite (getYamlErrorContextFromErr_matched _ N s lines (strings.TrimSpace rest));
    [|by apply scan_matches_canonical|by apply message_block_canonical].
  cbv zeta. rewrite Hadd, Hsub, Hidx.
  destruct (Z.ltb_spec (s + N - 1) (len lines)); [|lia].
  destruct (Z.leb_spec 0 (s + N - 1)); [|lia].
  reflexivity.
Qed.

(** C4.  For every error whose text does not match the pattern
    [error converting YAML to JSON: yaml: line N:] (the scan fails or does
    not fill its one operand), and for every start line and slice of
    lines, [getYamlErrorContextFromErr] returns the zero
    [YamlErrorContext]; it does not panic. *)
Theorem getYamlErrorContextFromErr_no_match text s lines :
  scan_fails text ->
  getYamlErrorContextFromErr (Err text) s lines = Returned YamlErrorContext_zero.
Proof.
  unfold scan_fails, getYamlErrorContextFromErr. intros Hfail.
  change (Error_ (Err text)) with (Returned text). rewrite !bind_Returned.
  destruct (fmt.Sscanf text yamlLineFormat 0) as [n [|e] a];
    cbn [fmt.scan_n fmt.scan_err fmt.scan_arg] in *.
  - destruct (Z.eqb_spec n 1) as [->|_]; [|by rewrite bind_Returned].
    exfalso. by apply Hfail.
  - by rewrite bind_Returned.
Qed.

(** C10.  When the text of the error matches the pattern but the
    absolute line computed, the start line plus the relative line, is
    outside the slice of lines, [getYamlErrorContextFromErr] returns the
    zero [YamlErrorContext]: none of the relative line, the absolute line
    or the message read is returned. *)
Theorem getYamlErrorContextFromErr_out_of_bounds text N s lines :
  scan_matches text N -> string_ok text -> slice_ok lines ->
  ~ (1 <= GoInt.add s N <= len lines) ->
  getYamlErrorContextFromErr (Err text) s lines = Returned YamlErrorContext_zero.
Proof.
  intros Hscan Htext Hok Hout.
  destruct (message_block_returns text N Htext) as (m & Hm).
  rewrite (getYamlErrorContextFromErr_matched text N s lines m Hscan Hm). cbv zeta.
  pose proof (wrap_in_range (s + N)) as Hr. fold (GoInt.add s N) in Hr.
  unfold GoInt.in_range, GoInt.min_int, GoInt.max_int in Hr.
  unfold slice_ok, GoInt.max_int in Hok. pose proof (len_nonneg lines).
  destruct (Z.eq_dec (GoInt.add s N) (- 2 ^ 63)) as [Heq|Hne].
  - rewrite Heq. change (GoInt.sub (- 2 ^ 63) 1) with (2 ^ 63 - 1).
    destruct (Z.ltb_spec (2 ^ 63 - 1) (len lines)); [lia|]. reflexivity.
  - assert (Hsub : GoInt.sub (GoInt.add s N) 1 = GoInt.add s N - 1).
    { apply wrap_id. unfold GoInt.in_range, GoInt.min_int, GoInt.max_int. lia. }
    rewrite Hsub.
    destruct (Z.ltb_spec (GoInt.add s N - 1) (len lines)); [|reflexivity].
    destruct (Z.leb_spec 0 (GoInt.add s N - 1)); [lia|]. reflexivity.
Qed.

(** An occurrence of [p] in [s] starts with [p]. *)
Lemma HasPrefix_inv p : forall s,
  strings.HasPrefix s p = true -> exists r, s = p +:+ r.
Proof.
  induction p as [|a p IH]; intros s H; [by exists s|].
  destruct s as [|c s]; [discriminate H|]. simpl in H.
  apply andb_true_iff in H as [Hc H]. apply Ascii.eqb_eq in Hc as ->.
  destruct (IH s H) as [r ->]. by exists r.
Qed.

Lemma append_same_length (a b x y : string) :
  a +:+ x = b +:+ y -> String.length a = String.length b -> a = b /\ x = y.
Proof.
  revert b. induction a as [|c a IH]; intros [|d b] Heq Hlen; try discriminate Hlen.
  - done.
  - rewrite !append_cons in Heq. injection Heq as -> Heq. simpl in Hlen.
    destruct (IH b Heq) as [-> ->]; [lia|done].
Qed.

(** [Index_from] finds the first occurrence of [p] in [s], or none. *)
Lemma Index_from_spec p s : forall i,
  0 <= i ->
  (strings.Index_from s p i = -1 /\ forall pre rest, s <> pre +:+ p +:+ rest) \/
  (exists pre rest,
     s = pre +:+ p +:+ rest /\
     strings.Index_from s p i = i + strlen pre /\
     forall pre' rest', s = pre' +:+ p +:+ rest' -> strlen pre <= strlen pre').
Proof.
  induction s as [|c s IH]; intros i Hi.
  - cbn [strings.Index_from]. destruct (strings.HasPrefix "" p) eqn:Hp.
    + right. apply HasPrefix_inv in Hp as [r Hr]. exists "", r.
      split; [exact Hr|]. split; [change (strlen "") with 0; lia|].
      intros pre' rest' _. change (strlen "") with 0. apply strlen_nonneg.
    + left. split; [reflexivity|]. intros pre rest Heq.
      destruct pre as [|x pre]; [|discriminate Heq].
      rewrite append_nil_l in Heq. rewrite Heq, HasPrefix_append in Hp. discriminate Hp.
  - cbn [strings.Index_from]. destruct (strings.HasPrefix (String c s) p) eqn:Hp.
    + right. apply HasPrefix_inv in Hp as [r Hr]. exists "", r.
      split; [exact Hr|]. split; [change (strlen "") with 0; lia|].
      intros pre' rest' _. change (strlen "") with 0. apply strlen_nonneg.
    + destruct (IH (i + 1)) as [[Hidx Hnone]|(pre & rest & Heq & Hidx & Hmin)]; [lia| |].
      * left. split; [exact Hidx|]. intros pre rest Heq.
        destruct pre as [|x pre].
        -- rewrite append_nil_l in Heq. rewrite Heq, HasPrefix_append in Hp.
           discriminate Hp.
        -- rewrite append_cons in Heq. injection Heq as _ Heq. by apply (Hnone pre rest).
      * right. exists (String c pre), rest. split; [by rewrite append_cons, <- Heq|].
        split.
        { rewrite Hidx. unfold strlen. simpl. lia. }
        intros pre' rest' Heq'. destruct pre' as [|x pre'].
        -- rewrite append_nil_l in Heq'. rewrite Heq', HasPrefix_append in Hp.
           discriminate Hp.
        -- rewrite append_cons in Heq'. injection Heq' as _ Heq'.
           specialize (Hmin pre' rest' Heq'). unfold strlen in *. simpl. lia.
Qed.

(** The message block of [getYamlErrorContextFromErr]: the text after the
    first occurrence of the phrase for [N], trimmed; nothing when the
    phrase does not occur. *)
Lemma message_block_spec text N :
  string_ok text ->
  exists m,
    (let prefix := fmt.Sprintf yamlLineFormat N in
     let idx := strings.Index text prefix in
     if negb (idx =? -1) then
       tail ← slice_from text (GoInt.add idx (strlen prefix));
       Returned (strings.TrimSpace tail)
     else Returned "") = Returned m /\
    (forall pre rest,
       text = pre +:+ fmt.Sprintf yamlLineFormat N +:+ rest ->
       (forall pre' rest', text = pre' +:+ fmt.Sprintf yamlLineFormat N +:+ rest' ->
                           strlen pre <= strlen pre') ->
       m = strings.TrimSpace rest) /\
    ((forall pre rest, text <> pre +:+ fmt.Sprintf yamlLineFormat N +:+ rest) -> m = "").
Proof.
  intros Hok. cbv zeta. set (prefix := fmt.Sprintf yamlLineFormat N).
  unfold strings.Index.
  destruct (Index_from_spec prefix text 0 ltac:(lia))
    as [[Hidx Hnone]|(pre & rest & Heq & Hidx & Hmin)]; rewrite Hidx.
  - exists "". split; [reflexivity|]. split; [|done].
    intros pre rest Heq _. exfalso. by apply (Hnone pre rest).
  - pose proof (strlen_nonneg pre). pose proof (strlen_nonneg prefix).
    pose proof (strlen_nonneg rest).
    assert (Hlen : strlen text = strlen pre + strlen prefix + strlen rest).
    { rewrite Heq, !strlen_append. lia. }
    unfold string_ok, GoInt.max_int in Hok.
    destruct (Z.eqb_spec (0 + strlen pre) (-1)); [lia|]. cbn [negb].
    assert (Hadd : GoInt.add (0 + strlen pre) (strlen prefix) = strlen pre + strlen prefix).
    { unfold GoInt.add. rewrite wrap_id; [lia|].
      unfold GoInt.in_range, GoInt.min_int, GoInt.max_int. lia. }
    rewrite Hadd. unfold slice_from.
    destruct (Z.leb_spec 0 (strlen pre + strlen prefix)); [|lia].
    destruct (Z.leb_spec (strlen pre + strlen prefix) (strlen text)); [|lia].
    cbn [andb]. rewrite bind_Returned.
    assert (Hdrop : string_drop (Z.to_nat (strlen pre + strlen prefix)) text = rest).
    { rewrite Heq, <- append_assoc.
      replace (Z.to_nat (strlen pre + strlen prefix))
        with (String.length (pre +:+ prefix))
        by (rewrite length_append; unfold strlen; lia).
      apply string_drop_append. }
    rewrite Hdrop. exists (strings.TrimSpace rest). split; [reflexivity|].
    split.
    + intros pre1 rest1 Heq1 Hmin1.
      assert (Hsame : String.length pre1 = String.length pre).
      { specialize (Hmin pre1 rest1 Heq1). specialize (Hmin1 pre rest Heq).
        unfold strlen in *. lia. }
      rewrite Heq in Heq1.
      apply append_same_length in Heq1 as [_ Heq1]; [|done].
      apply append_same_length in Heq1 as [_ ->]; done.
    + intros Hnone. exfalso. by apply (Hnone pre rest).
Qed.

(** C3 (corrected).  For every error whose text matches the pattern
    [error converting YAML to JSON: yaml: line N:], as the scan of the code
    tests it, with the relative line [N] read, every start line [s] and
    every slice of lines: when the absolute line [s + N] is within the
    slice (counted from 1), [getYamlErrorContextFromErr] returns the
    context with [RelLine = N], [AbsLine = s + N] and [Context] the line
    at that position.  Its [Message] is the text after the first
    occurrence of the phrase written with [N] in plain decimal, trimmed of
    white space: the text after the phrase when the error text starts
    with it; and it is empty when the text does not hold the phrase in
    that spelling. *)
Theorem getYamlErrorContextFromErr_locates text N s lines :
  scan_matches text N -> string_ok text -> slice_ok lines ->
  1 <= s + N <= len lines ->
  exists line msg,
    line_at lines (s + N) = Some line /\
    getYamlErrorContextFromErr (Err text) s lines =
      Returned {| RelLine := N; AbsLine := s + N; Message := msg; Context := line |} /\
    (forall rest, text = fmt.Sprintf yamlLineFormat N +:+ rest ->
                  msg = strings.TrimSpace rest) /\
    (forall pre rest,
       text = pre +:+ fmt.Sprintf yamlLineFormat N +:+ rest ->
       (forall pre' rest', text = pre' +:+ fmt.Sprintf yamlLineFormat N +:+ rest' ->
                           strlen pre <= strlen pre') ->
       msg = strings.TrimSpace rest) /\
    ((forall pre rest, text <> pre +:+ fmt.Sprintf yamlLineFormat N +:+ rest) ->
     msg = "").
Proof.
  intros Hscan Htext Hok Hb.
  destruct (line_in_bounds lines s N Hok Hb) as (Hadd & Hsub & line & Hline & Hidx).
  destruct (message_block_spec text N Htext) as (msg & Hblock & Hfirst & Hnone).
  exists line, msg. split; [exact Hline|]. split; [|split; [|split]].
  - rewrite (getYamlErrorContextFromErr_matched text N s lines msg Hscan Hblock).
    cbv zeta. rewrite Hadd, Hsub, Hidx.
    destruct (Z.ltb_spec (s + N - 1) (len lines)); [|lia].
    destruct (Z.leb_spec 0 (s + N - 1)); [|lia].
    reflexivity.
  - intros rest Heq. apply (Hfirst "" rest).
    + by rewrite append_nil_l.
    + intros pre' rest' _. change (strlen "") with 0. apply strlen_nonneg.
  - exact Hfirst.
  - exact Hnone.
Qed.

Lemma in_range_small x : -1000 <= x <= 1000 -> GoInt.in_range x.
Proof. unfold GoInt.in_range, GoInt.min_int, GoInt.max_int. lia. Qed.

Lemma getYamlErrorContextFromErr_locates_witness :
  getYamlErrorContextFromErr
    (Err ("error converting YAML to JSON: yaml: line 1:"
          +:+ "   did not find expected ',' or ']'  "))
    2 two_documents =
    Returned {| RelLine := 1; AbsLine := 3;
                Message := "did not find expected ',' or ']'";
                Context := "b: [1,2" |}.
Proof.
  destruct (getYamlErrorContextFromErr_locates
              ("error converting YAML to JSON: yaml: line 1:"
               +:+ "   did not find expected ',' or ']'  ")
              1 2 two_documents)
    as (line & msg & Hline & Hrun & Hcanon & _).
  - vm_compute. reflexivity.
  - unfold string_ok. vm_compute. reflexivity.
  - apply slice_ok_small. simpl. lia.
  - change (len two_documents) with 3. lia.
  - rewrite Hrun.
    rewrite (Hcanon "   did not find expected ',' or ']'  " eq_refl).
    vm_compute in Hline. injection Hline as <-.
    vm_compute. reflexivity.
Defined.

(** The text [line +1:] matches, and its message is not returned. *)
Lemma getYamlErrorContextFromErr_signed_line :
  exists ctx,
    scan_matches
      ("error converting YAML to JSON: yaml: line +1:" +:+ " did not find expected key") 1 /\
    getYamlErrorContextFromErr
      (Err ("error converting YAML to JSON: yaml: line +1:"
            +:+ " did not find expected key"))
      2 two_documents = Returned ctx /\
    RelLine ctx = 1 /\ AbsLine ctx = 3 /\ Context ctx = "b: [1,2" /\
    Message ctx = "" /\
    Message ctx <> strings.TrimSpace " did not find expected key".
Proof.
  eexists. split; [vm_compute; reflexivity|]. split; [vm_compute; reflexivity|].
  repeat split. vm_compute. discriminate.
Qed.

Lemma getYamlErrorContextFromErr_no_match_witness :
  getYamlErrorContextFromErr (Err "yaml: line 2: did not find expected key")
    1 two_documents = Returned YamlErrorContext_zero.
Proof.
  apply (getYamlErrorContextFromErr_no_match "yaml: line 2: did not find expected key").
  intros [H _]. vm_compute in H. discriminate H.
Defined.

Lemma getYamlErrorContextFromErr_out_of_bounds_witness :
  getYamlErrorContextFromErr (Err flow_error) 5 two_documents =
    Returned YamlErrorContext_zero.
Proof.
  apply (getYamlErrorContextFromErr_out_of_bounds flow_error 1 5 two_documents).
  - vm_compute. reflexivity.
  - vm_compute. reflexivity.
  - apply slice_ok_small. simpl. lia.
  - change (GoInt.add 5 1) with 6. change (len two_documents) with 3. lia.
Defined.

(** C6.  On the three lines [a: 1], [---], [b: [1,2]: from the start of
    the first document at line 1, [moveToNextDoc] moves to the separator,
    and for a decode error [error converting YAML to JSON: yaml: line 1:
    <msg>] of the second document [getYamlErrorContextFromErr] returns
    [AbsLine = 3], the line of [b: [1,2] in the text, and that line as
    [Context]. *)
Theorem two_documents_second_located msg :
  exists start ctx,
    moveToNextDoc two_documents 1 = Some (Returned start) /\
    getYamlErrorContextFromErr
      (Err ("error converting YAML to JSON: yaml: line 1:" +:+ msg))
      start two_documents = Returned ctx /\
    RelLine ctx = 1 /\ AbsLine ctx = 3 /\ Context ctx = "b: [1,2" /\
    line_at two_documents 3 = Some (Context ctx).
Proof.
  exists 2.
  destruct (getYamlErrorContextFromErr_canonical 1 2 two_documents msg)
    as (line & Hline & Hctx).
  - apply in_range_small. lia.
  - apply slice_ok_small. simpl. lia.
  - change (len two_documents) with 3. lia.
  - change (line_at two_documents (2 + 1)) with (Some "b: [1,2") in Hline.
    injection Hline as <-.
    change (fmt.Sprintf yamlLineFormat 1)
      with "error converting YAML to JSON: yaml: line 1:" in Hctx.
    eexists. split; [reflexivity|]. split; [exact Hctx|]. repeat split.
Qed.

(** *** [convertToMap] *)

Section PipelineProperties.

Context {Template : Type} (E : Collaborators Template).

Lemma convertToMap_decoded req jReq mReq :
  protojson_Marshal E req = inl jReq ->
  json_Unmarshal E jReq = inl mReq ->
  convertToMap E req =
    inl (match mReq !! "extraResources" with
         | Some _ => mReq
         | None =>
           match mReq !! "requiredResources" with
           | Some r => <["extraResources" := r]> mReq
           | None => mReq
           end
         end).
Proof.
  intros Hm Hu. unfold convertToMap. rewrite Hm, Hu.
  destruct (mReq !! "extraResources"); [reflexivity|].
  destruct (mReq !! "requiredResources"); reflexivity.
Qed.

Lemma safeApplyTemplateOptions_eq templ options :
  safeApplyTemplateOptions E templ options =
    (fst (Option E templ options),
     Returned
       match snd (Option E templ options) with
       | Returned _ => ErrNil
       | Panicked v =>
         Err ("panic occurred while applying template options: " +:+ fmt.format_v v)
       end).
Proof.
  unfold safeApplyTemplateOptions.
  destruct (Option E templ options) as [t [u|v]]; reflexivity.
Qed.

Lemma RunFunction_after_render req data :
  renders E req data ->
  RunFunction E req =
    match Decode E data (response.To req response.DefaultTTL) with
    | (Some rsp, Some err) =>
      Returned (with_fatal rsp ("cannot decode manifest: " +:+ err), ErrNil)
    | (None, _) => Panicked NilDereference
    | (Some rsp, None) =>
      match desired rsp with
      | None => Panicked NilDereference
      | Some _ => Returned (rsp, ErrNil)
      end
    end.
Proof.
  intros (in_ & templates & tmpl & tmpl' & reqMap & Hin & Hsrc & Hparse & Hopt & Hmap & Hexec).
  assert (Hrender : render E req (response.To req response.DefaultTTL) tmpl' =
    match Decode E data (response.To req response.DefaultTTL) with
    | (Some rsp, Some err) =>
      Returned (with_fatal rsp ("cannot decode manifest: " +:+ err), ErrNil)
    | (None, _) => Panicked NilDereference
    | (Some rsp, None) =>
      match desired rsp with
      | None => Panicked NilDereference
      | Some _ => Returned (rsp, ErrNil)
      end
    end).
  { unfold render. rewrite Hmap, Hexec.
    destruct (Decode E data (response.To req response.DefaultTTL)) as [[rsp|] [err|]];
      reflexivity. }
  unfold RunFunction. rewrite Hin, Hsrc, Hparse.
  destruct Hopt as [[Hnone ->]|(options & Hsome & Happly)].
  - rewrite Hnone. exact Hrender.
  - rewrite Hsome, safeApplyTemplateOptions_eq, Happly.
    cbn [fst snd]. rewrite bind_Returned. exact Hrender.
Qed.

End PipelineProperties.

(** C2.  For every request map that [convertToMap] produces: when the
    decoded map has [requiredResources] and no [extraResources], the
    output binds [extraResources] to the value of [requiredResources] and
    keeps [requiredResources]; when [extraResources] is already there, the
    output is the decoded map unchanged, whatever [requiredResources] is.
    No other key changes. *)
Theorem convertToMap_extraResources {Template} (E : Collaborators Template)
    req jReq (mReq : gmap string Value) :
  protojson_Marshal E req = inl jReq ->
  json_Unmarshal E jReq = inl mReq ->
  exists out : gmap string Value,
    convertToMap E req = inl out /\
    (forall r, mReq !! "requiredResources" = Some r ->
               mReq !! "extraResources" = None ->
               out !! "extraResources" = Some r /\
               out !! "requiredResources" = Some r) /\
    (forall e, mReq !! "extraResources" = Some e ->
               out !! "extraResources" = Some e /\ out = mReq) /\
    (forall k, k <> "extraResources" -> out !! k = mReq !! k).
Proof.
  intros Hm Hu. eexists. split; [by apply (convertToMap_decoded E req jReq)|].
  split; [|split].
  - intros r Hreq Hextra. rewrite Hextra, Hreq.
    split; [apply lookup_insert_eq|]. by rewrite lookup_insert_ne.
  - intros e Hextra. by rewrite Hextra.
  - intros k Hk. destruct (mReq !! "extraResources"); [reflexivity|].
    destruct (mReq !! "requiredResources"); [|reflexivity].
    by rewrite lookup_insert_ne.
Qed.

Lemma convertToMap_extraResources_witness :
  exists out : gmap string Value,
    convertToMap
      (inline_collaborators "" None {[ "requiredResources" := VString "r" ]})
      empty_request = inl out /\
    (forall r, ({[ "requiredResources" := VString "r" ]} : gmap string Value)
                 !! "requiredResources" = Some r ->
               ({[ "requiredResources" := VString "r" ]} : gmap string Value)
                 !! "extraResources" = None ->
               out !! "extraResources" = Some r /\
               out !! "requiredResources" = Some r) /\
    (forall e, ({[ "requiredResources" := VString "r" ]} : gmap string Value)
                 !! "extraResources" = Some e ->
               out !! "extraResources" = Some e /\
               out = {[ "requiredResources" := VString "r" ]}) /\
    (forall k, k <> "extraResources" ->
               out !! k = ({[ "requiredResources" := VString "r" ]} : gmap string Value) !! k).
Proof.
  apply (convertToMap_extraResources
           (inline_collaborators "" None {[ "requiredResources" := VString "r" ]})
           empty_request "{}" {[ "requiredResources" := VString "r" ]});
    reflexivity.
Defined.

(** C1.  A panic of the option-setting call of the template never goes
    past [safeApplyTemplateOptions]: for every template and list of
    options it returns; when the call panics with a value, it returns an
    error whose text carries that value, and [RunFunction] answers with
    the fatal result [cannot apply template options: ...] and a nil
    error. *)
Theorem safeApplyTemplateOptions_contains_panic {Template}
    (E : Collaborators Template) req in_ templates tmpl options tmpl' v :
  GetInput E req = inl in_ ->
  NewTemplateSourceGetter E (req_context req) in_ = inl templates ->
  Parse E (Delims in_) templates = inl tmpl ->
  Options in_ = Some options ->
  Option E tmpl options = (tmpl', Panicked v) ->
  (forall t opts, exists t' err,
     safeApplyTemplateOptions E t opts = (t', Returned err)) /\
  safeApplyTemplateOptions E tmpl options =
    (tmpl', Returned (Err ("panic occurred while applying template options: "
                           +:+ fmt.format_v v))) /\
  RunFunction E req =
    Returned
      (fatal_response req
         ("cannot apply template options: panic occurred while applying template options: "
          +:+ fmt.format_v v),
       ErrNil).
Proof.
  intros Hin Hsrc Hparse Hopts Hpanic. split; [|split].
  - intros t opts. rewrite safeApplyTemplateOptions_eq. eauto.
  - by rewrite safeApplyTemplateOptions_eq, Hpanic.
  - unfold RunFunction. rewrite Hin, Hsrc, Hparse, Hopts.
    rewrite safeApplyTemplateOptions_eq, Hpanic. reflexivity.
Qed.

Lemma safeApplyTemplateOptions_contains_panic_witness :
  RunFunction
    (inline_collaborators "hello" (Some ["missingkey=error"; "strict"]) ∅)
    empty_request =
    Returned
      (fatal_response empty_request
         "cannot apply template options: panic occurred while applying template options: unrecognized option: strict",
       ErrNil).
Proof.
  apply (safeApplyTemplateOptions_contains_panic
           (inline_collaborators "hello" (Some ["missingkey=error"; "strict"]) ∅)
           empty_request
           {| Source := "Inline"; Delims := None;
              Options := Some ["missingkey=error"; "strict"] |}
           "hello" (literal_template "hello") ["missingkey=error"; "strict"]
           {| template.text := "hello"; template.missingKey := template.mapError |}
           (PanicString "unrecognized option: strict")); reflexivity.
Defined.

(** C8 (corrected).  For every failure of the manifest decoder,
    [RunFunction] answers with the response as the decoder left it and
    one more result, fatal, whose message is the wrapped error of the
    decoder, [cannot decode manifest: <error>], and nothing else:
    [getYamlErrorContextFromErr] is not called and no [YamlErrorContext]
    is part of the result. *)
Theorem RunFunction_decode_failure {Template} (E : Collaborators Template)
    req data rsp err :
  renders E req data ->
  Decode E data (response.To req response.DefaultTTL) = (Some rsp, Some err) ->
  RunFunction E req =
    Returned (with_fatal rsp ("cannot decode manifest: " +:+ err), ErrNil).
Proof.
  intros Hrenders Hdecode. rewrite (RunFunction_after_render E req data Hrenders).
  by rewrite Hdecode.
Qed.

Lemma renders_inline source mReq :
  renders (inline_collaborators source None mReq) empty_request source.
Proof.
  exists {| Source := "Inline"; Delims := None; Options := None |}, source,
    (literal_template source), (literal_template source),
    (match mReq !! "extraResources" with
     | Some _ => mReq
     | None =>
       match mReq !! "requiredResources" with
       | Some r => <["extraResources" := r]> mReq
       | None => mReq
       end
     end).
  split; [reflexivity|]. split; [reflexivity|]. split; [reflexivity|].
  split; [by left|]. split; [|reflexivity].
  by apply (convertToMap_decoded _ _ "{}").
Defined.

Lemma RunFunction_decode_failure_witness :
  RunFunction (inline_collaborators invalid_text None ∅) empty_request =
    Returned
      (with_fatal (response.To empty_request response.DefaultTTL)
         ("cannot decode manifest: " +:+ mapping_error),
       ErrNil).
Proof.
  apply (RunFunction_decode_failure _ _ invalid_text).
  - apply renders_inline.
  - vm_compute. reflexivity.
Defined.

(** The text [invalid_text] fails to decode at its second line; the
    diagnostic for that error, from the top of the text, holds the line,
    and no result of the response shows it. *)
Lemma RunFunction_decode_failure_hides_context :
  exists rsp ctx,
    Decode (inline_collaborators invalid_text None ∅) invalid_text
      (response.To empty_request response.DefaultTTL) =
      (Some (response.To empty_request response.DefaultTTL), Some mapping_error) /\
    RunFunction (inline_collaborators invalid_text None ∅) empty_request =
      Returned (rsp, ErrNil) /\
    getYamlErrorContextFromErr (Err mapping_error) 0 invalid_lines = Returned ctx /\
    RelLine ctx = 2 /\ AbsLine ctx = 2 /\ Context ctx = "b: c: d" /\
    ~ surfaces rsp ctx.
Proof.
  eexists _, _. split; [vm_compute; reflexivity|].
  split; [vm_compute; reflexivity|]. split; [vm_compute; reflexivity|].
  split; [reflexivity|]. split; [reflexivity|]. split; [reflexivity|].
  intros (r & Hr & Hidx). apply list_elem_of_singleton in Hr. subst r.
  apply Hidx. vm_compute. reflexivity.
Qed.

(** C7 (corrected).  For every rendered text that the decoder decodes
    into a response with a desired state, [RunFunction] returns that
    response as it was decoded: the readiness and the body of every
    desired resource are the decoder's, and the annotations
    [gotemplating.fn.crossplane.io/ready] and
    [gotemplating.fn.crossplane.io/composition-resource-name] are neither
    read nor removed. *)
Theorem RunFunction_returns_decoded {Template} (E : Collaborators Template)
    req data rsp st :
  renders E req data ->
  Decode E data (response.To req response.DefaultTTL) = (Some rsp, None) ->
  desired rsp = Some st ->
  RunFunction E req = Returned (rsp, ErrNil).
Proof.
  intros Hrenders Hdecode Hdesired.
  rewrite (RunFunction_after_render E req data Hrenders).
  by rewrite Hdecode, Hdesired.
Qed.

Lemma RunFunction_returns_decoded_witness :
  RunFunction (inline_collaborators annotated_text None ∅) empty_request =
    Returned (annotated_into (response.To empty_request response.DefaultTTL), ErrNil).
Proof.
  eapply (RunFunction_returns_decoded _ _ annotated_text).
  - apply renders_inline.
  - vm_compute. reflexivity.
  - reflexivity.
Defined.

(** The text [annotated_text] decodes into a desired resource whose body
    carries [ready: True]; the response returned has that resource with
    the annotation in place and no readiness. *)
Lemma RunFunction_ignores_annotations :
  exists decoded emitted,
    Decode (inline_collaborators annotated_text None ∅) annotated_text
      (response.To empty_request response.DefaultTTL) = (Some decoded, None) /\
    RunFunction (inline_collaborators annotated_text None ∅) empty_request =
      Returned (emitted, ErrNil) /\
    desired_resources emitted !! "bucket" =
      Some {| resource := annotated_body; ready := READY_UNSPECIFIED |} /\
    annotation annotated_body annotationKeyReady = Some (VBool true) /\
    ~ annotations_applied decoded emitted.
Proof.
  exists (annotated_into (response.To empty_request response.DefaultTTL)),
    (annotated_into (response.To empty_request response.DefaultTTL)).
  split; [vm_compute; reflexivity|]. split; [vm_compute; reflexivity|].
  split; [reflexivity|]. split; [reflexivity|].
  intros Happlied.
  destruct (Happlied "bucket" {| resource := annotated_body; ready := READY_UNSPECIFIED |})
    as (r' & Hr' & Hready & _).
  - reflexivity.
  - left. reflexivity.
  - change (desired_resources (annotated_into (response.To empty_request response.DefaultTTL))
              !! "bucket")
      with (Some {| resource := annotated_body; ready := READY_UNSPECIFIED |}) in Hr'.
    injection Hr' as <-. discriminate Hready.
Qed.

Lemma moveToNextDoc_index_safety_witness :
  exists ks r,
    moveToNextDoc_reads two_documents 1 = Some ks /\
    Forall (fun k => 0 <= k <= len two_documents - 1) ks /\
    moveToNextDoc two_documents 1 = Some (Returned r).
Proof.
  apply (proj2 moveToNextDoc_index_safety two_documents 1).
  - apply slice_ok_small. simpl. lia.
  - lia.
Defined.

(** * Further properties *)

(** *** The paths of [RunFunction] *)

Section RunFunctionPaths.

Context {Template : Type} (E : Collaborators Template).

Lemma fatal_Err req e message :
  fatal (response.To req response.DefaultTTL) (Err e) message =
    Returned (fatal_response req (message +:+ ": " +:+ e), ErrNil).
Proof. reflexivity. Qed.

Lemma convertToMap_inr req err :
  convertToMap E req = inr err ->
  (exists e, protojson_Marshal E req = inr e /\
             err = Err ("cannot marshal request from proto to json: " +:+ e)) \/
  (exists jReq e, protojson_Marshal E req = inl jReq /\
                  json_Unmarshal E jReq = inr e /\
                  err = Err ("cannot unmarshal json to map[string]any: " +:+ e)).
Proof.
  unfold convertToMap.
  destruct (protojson_Marshal E req) as [jReq|e] eqn:Hm.
  - destruct (json_Unmarshal E jReq) as [mReq|e] eqn:Hu.
    + destruct (mReq !! "extraResources"); [discriminate|].
      destruct (mReq !! "requiredResources"); discriminate.
    + intros [= <-]. right. by exists jReq, e.
  - intros [= <-]. left. by exists e.
Qed.

(** Either an early stage fails, with a fatal response to the request, or
    the template is ready and [RunFunction] goes on to render it. *)
Lemma RunFunction_early_or_compiled req :
  (exists msg, RunFunction E req = Returned (fatal_response req msg, ErrNil)) \/
  (exists tmpl',
     compiles E req tmpl' /\
     RunFunction E req = render E req (response.To req response.DefaultTTL) tmpl').
Proof.
  unfold RunFunction.
  destruct (GetInput E req) as [in_|e] eqn:Hin; [|left; eexists; apply fatal_Err].
  destruct (NewTemplateSourceGetter E (req_context req) in_) as [templates|e] eqn:Hsrc;
    [|left; eexists; apply fatal_Err].
  destruct (Parse E (Delims in_) templates) as [tmpl|e] eqn:Hparse;
    [|left; eexists; apply fatal_Err].
  destruct (Options in_) as [options|] eqn:Hopts.
  - rewrite safeApplyTemplateOptions_eq.
    destruct (Option E tmpl options) as [tmpl' [[]|v]] eqn:Happly;
      cbn [fst snd]; rewrite bind_Returned.
    + right. exists tmpl'. split; [|reflexivity].
      exists in_, templates, tmpl.
      split; [exact Hin|]. split; [exact Hsrc|]. split; [exact Hparse|].
      right. exists options. split; [exact Hopts|exact Happly].
    + left. eexists. apply fatal_Err.
  - right. exists tmpl. split; [|reflexivity].
    exists in_, templates, tmpl.
    split; [exact Hin|]. split; [exact Hsrc|]. split; [exact Hparse|].
    left. split; [exact Hopts|reflexivity].
Qed.

(** What [RunFunction] does from the conversion of the request on, by
    cases: a fatal response to the request; the text [data] rendered and
    then a fatal result on the response as the failing decoder left it,
    the decoded response, or a panic on a nil response or a nil desired
    state. *)
Lemma render_cases req tmpl' :
  compiles E req tmpl' ->
  (exists msg,
     render E req (response.To req response.DefaultTTL) tmpl' =
       Returned (fatal_response req msg, ErrNil)) \/
  (exists data decoded derr,
     renders E req data /\
     Decode E data (response.To req response.DefaultTTL) = (decoded, derr) /\
     render E req (response.To req response.DefaultTTL) tmpl' =
       match decoded, derr with
       | Some rsp, Some err =>
         Returned (with_fatal rsp ("cannot decode manifest: " +:+ err), ErrNil)
       | None, _ => Panicked NilDereference
       | Some rsp, None =>
         match desired rsp with
         | None => Panicked NilDereference
         | Some _ => Returned (rsp, ErrNil)
         end
       end).
Proof.
  intros (in_ & templates & tmpl & Hin & Hsrc & Hparse & Hopt).
  unfold render.
  destruct (convertToMap E req) as [reqMap|err] eqn:Hmap.
  - destruct (Execute E tmpl' reqMap) as [data|e] eqn:Hexec.
    + right.
      destruct (Decode E data (response.To req response.DefaultTTL))
        as [decoded derr] eqn:Hdec.
      exists data, decoded, derr. split; [|split; [exact Hdec|]].
      * by exists in_, templates, tmpl, tmpl', reqMap.
      * destruct decoded as [rsp|], derr as [err|]; reflexivity.
    + left. eexists. apply fatal_Err.
  - left. apply convertToMap_inr in Hmap as [(e & _ & ->)|(jReq & e & _ & _ & ->)];
      eexists; apply fatal_Err.
Qed.

Lemma RunFunction_cases req :
  (exists msg, RunFunction E req = Returned (fatal_response req msg, ErrNil)) \/
  (exists data decoded derr,
     renders E req data /\
     Decode E data (response.To req response.DefaultTTL) = (decoded, derr) /\
     RunFunction E req =
       match decoded, derr with
       | Some rsp, Some err =>
         Returned (with_fatal rsp ("cannot decode manifest: " +:+ err), ErrNil)
       | None, _ => Panicked NilDereference
       | Some rsp, None =>
         match desired rsp with
         | None => Panicked NilDereference
         | Some _ => Returned (rsp, ErrNil)
         end
       end).
Proof.
  destruct (RunFunction_early_or_compiled req) as [Hearly|(tmpl' & Hc & ->)];
    [by left|].
  by apply render_cases.
Qed.

End RunFunctionPaths.

(** X1.  [RunFunction] never returns a Go error: whenever it returns,
    the error is nil, and the response is one of three: the response to
    the request (its tag, desired state and context, the default time to
    live) with one fatal result, for a failure before the decoder; the
    response as the decoder left it when it failed on the rendered text,
    with one more result, fatal, [cannot decode manifest: ...]; or the
    response that the decoder produced from the rendered text, which has
    a desired state. *)
Theorem RunFunction_reports_in_response {Template} (E : Collaborators Template)
    req rsp err :
  RunFunction E req = Returned (rsp, err) ->
  err = ErrNil /\
  ((exists msg, rsp = fatal_response req msg) \/
   (exists data left_ e,
      renders E req data /\
      Decode E data (response.To req response.DefaultTTL) = (Some left_, Some e) /\
      rsp = with_fatal left_ ("cannot decode manifest: " +:+ e)) \/
   (exists data st,
      renders E req data /\
      Decode E data (response.To req response.DefaultTTL) = (Some rsp, None) /\
      desired rsp = Some st)).
Proof.
  intros Hrun.
  destruct (RunFunction_cases E req)
    as [(msg & H)|(data & decoded & derr & Hrenders & Hdec & H)];
    rewrite H in Hrun.
  - injection Hrun as <- <-. split; [reflexivity|]. left. by exists msg.
  - destruct decoded as [rsp'|]; [|destruct derr; discriminate Hrun].
    destruct derr as [e|].
    + injection Hrun as <- <-. split; [reflexivity|]. right. left.
      by exists data, rsp', e.
    + destruct (desired rsp') as [st|] eqn:Hdes; [|discriminate Hrun].
      injection Hrun as <- <-. split; [reflexivity|]. right. right.
      by exists data, st.
Qed.

Lemma RunFunction_reports_in_response_witness :
  ErrNil = ErrNil /\
  ((exists msg,
      with_fatal (response.To empty_request response.DefaultTTL)
        ("cannot decode manifest: " +:+ mapping_error) =
      fatal_response empty_request msg) \/
   (exists data left_ e,
      renders (inline_collaborators invalid_text None ∅) empty_request data /\
      Decode (inline_collaborators invalid_text None ∅) data
        (response.To empty_request response.DefaultTTL) = (Some left_, Some e) /\
      with_fatal (response.To empty_request response.DefaultTTL)
        ("cannot decode manifest: " +:+ mapping_error) =
      with_fatal left_ ("cannot decode manifest: " +:+ e)) \/
   (exists data st,
      renders (inline_collaborators invalid_text None ∅) empty_request data /\
      Decode (inline_collaborators invalid_text None ∅) data
        (response.To empty_request response.DefaultTTL) =
        (Some (with_fatal (response.To empty_request response.DefaultTTL)
                 ("cannot decode manifest: " +:+ mapping_error)), None) /\
      desired (with_fatal (response.To empty_request response.DefaultTTL)
                 ("cannot decode manifest: " +:+ mapping_error)) = Some st)).
Proof.
  apply (RunFunction_reports_in_response
           (inline_collaborators invalid_text None ∅) empty_request).
  vm_compute. reflexivity.
Defined.

(** X2.  When the stages before the decoder succeed and the decoder
    succeeds leaving a nil response, or a response without a desired
    state, [RunFunction] panics with a nil dereference: it reads
    [rsp.Desired.Resources] for its last log call. *)
Theorem RunFunction_nil_desired_panics {Template} (E : Collaborators Template)
    req data decoded :
  renders E req data ->
  Decode E data (response.To req response.DefaultTTL) = (decoded, None) ->
  (decoded = None \/ exists rsp, decoded = Some rsp /\ desired rsp = None) ->
  RunFunction E req = Panicked NilDereference.
Proof.
  intros Hrenders Hdec Hnil.
  rewrite (RunFunction_after_render E req data Hrenders), Hdec.
  destruct Hnil as [->|(rsp & -> & ->)]; reflexivity.
Qed.

Lemma RunFunction_nil_desired_panics_witness :
  RunFunction (inline_collaborators "a: 1" None ∅) empty_request =
    Panicked NilDereference.
Proof.
  apply (RunFunction_nil_desired_panics _ _ "a: 1"
           (Some (response.To empty_request response.DefaultTTL))).
  - apply renders_inline.
  - reflexivity.
  - right. eexists. split; reflexivity.
Defined.

(** X3.  With collaborators that do not panic, the option setter apart,
    [RunFunction] panics only after all the stages before the decoder
    have succeeded and rendered a text, on what the decoder made of that
    text: a nil response, or, without an error, a response without a
    desired state.  A panic of the option setter and every error of an
    earlier stage end in a response. *)
Theorem RunFunction_panics_only_after_decoding {Template}
    (E : Collaborators Template) req v :
  RunFunction E req = Panicked v ->
  v = NilDereference /\
  exists data decoded derr,
    renders E req data /\
    Decode E data (response.To req response.DefaultTTL) = (decoded, derr) /\
    (decoded = None \/
     (derr = None /\ exists rsp, decoded = Some rsp /\ desired rsp = None)).
Proof.
  intros Hrun.
  destruct (RunFunction_cases E req)
    as [(msg & H)|(data & decoded & derr & Hrenders & Hdec & H)];
    rewrite H in Hrun; [discriminate Hrun|].
  destruct decoded as [rsp|].
  - destruct derr as [e|]; [discriminate Hrun|].
    destruct (desired rsp) eqn:Hdes; [discriminate Hrun|].
    injection Hrun as <-. split; [reflexivity|].
    exists data, (Some rsp), None. split; [done|]. split; [done|].
    right. split; [reflexivity|]. by exists rsp.
  - assert (v = NilDereference) as -> by (destruct derr; by injection Hrun).
    split; [reflexivity|]. exists data, None, derr. split; [done|]. split; [done|].
    by left.
Qed.

Lemma RunFunction_panics_only_after_decoding_witness :
  NilDereference = NilDereference /\
  exists data decoded derr,
    renders (inline_collaborators "a: 1" None ∅) empty_request data /\
    Decode (inline_collaborators "a: 1" None ∅) data
      (response.To empty_request response.DefaultTTL) = (decoded, derr) /\
    (decoded = None \/
     (derr = None /\ exists rsp, decoded = Some rsp /\ desired rsp = None)).
Proof.
  apply (RunFunction_panics_only_after_decoding
           (inline_collaborators "a: 1" None ∅) empty_request).
  reflexivity.
Defined.

Lemma RunFunction_after_compile {Template} (E : Collaborators Template) req tmpl' :
  compiles E req tmpl' ->
  RunFunction E req = render E req (response.To req response.DefaultTTL) tmpl'.
Proof.
  intros (in_ & templates & tmpl & Hin & Hsrc & Hparse & Hopt).
  unfold RunFunction. rewrite Hin, Hsrc, Hparse.
  destruct Hopt as [[Hnone ->]|(options & Hsome & Happly)].
  - by rewrite Hnone.
  - rewrite Hsome, safeApplyTemplateOptions_eq, Happly.
    cbn [fst snd]. by rewrite bind_Returned.
Qed.

(** X4.  [RunFunction] stops at the first of its early stages that
    fails, whatever the later collaborators would do: a failure to read
    the input, to get the template source or to parse the templates gives
    the fatal result with the message of that stage in front of the text
    of the error. *)
Theorem RunFunction_fails_fast {Template} (E : Collaborators Template) req :
  (forall e, GetInput E req = inr e ->
     RunFunction E req =
       Returned (fatal_response req
         ("cannot get Function input from *v1.RunFunctionRequest: " +:+ e), ErrNil)) /\
  (forall in_ e, GetInput E req = inl in_ ->
     NewTemplateSourceGetter E (req_context req) in_ = inr e ->
     RunFunction E req =
       Returned (fatal_response req ("invalid function input: " +:+ e), ErrNil)) /\
  (forall in_ templates e, GetInput E req = inl in_ ->
     NewTemplateSourceGetter E (req_context req) in_ = inl templates ->
     Parse E (Delims in_) templates = inr e ->
     RunFunction E req =
       Returned (fatal_response req
         ("invalid function input: cannot parse the provided templates: " +:+ e),
         ErrNil)).
Proof.
  split; [|split].
  - intros e Hin. unfold RunFunction. by rewrite Hin.
  - intros in_ e Hin Hsrc. unfold RunFunction. by rewrite Hin, Hsrc.
  - intros in_ templates e Hin Hsrc Hparse. unfold RunFunction.
    by rewrite Hin, Hsrc, Hparse.
Qed.

(** X5.  Once the template is parsed and its options applied,
    [RunFunction] converts the request and executes the template that the
    options were applied to: a failure of either codec is reported as
    [cannot convert request to map: ...] around the message of
    [convertToMap], a failure of the execution as [cannot execute
    template: ...]. *)
Theorem RunFunction_failures_after_options {Template} (E : Collaborators Template)
    req tmpl' :
  compiles E req tmpl' ->
  (forall e, protojson_Marshal E req = inr e ->
     RunFunction E req =
       Returned (fatal_response req
         ("cannot convert request to map: cannot marshal request from proto to json: "
          +:+ e), ErrNil)) /\
  (forall jReq e, protojson_Marshal E req = inl jReq ->
     json_Unmarshal E jReq = inr e ->
     RunFunction E req =
       Returned (fatal_response req
         ("cannot convert request to map: cannot unmarshal json to map[string]any: "
          +:+ e), ErrNil)) /\
  (forall reqMap e, convertToMap E req = inl reqMap ->
     Execute E tmpl' reqMap = inr e ->
     RunFunction E req =
       Returned (fatal_response req ("cannot execute template: " +:+ e), ErrNil)).
Proof.
  intros Hc. rewrite (RunFunction_after_compile E req tmpl' Hc).
  split; [|split].
  - intros e Hm. unfold render, convertToMap. by rewrite Hm.
  - intros jReq e Hm Hu. unfold render, convertToMap. by rewrite Hm, Hu.
  - intros reqMap e Hmap Hexec. unfold render. by rewrite Hmap, Hexec.
Qed.

Lemma RunFunction_fails_fast_witness :
  RunFunction no_input_collaborators empty_request =
    Returned (fatal_response empty_request
      ("cannot get Function input from *v1.RunFunctionRequest: " +:+ "no input"), ErrNil).
Proof.
  apply (proj1 (RunFunction_fails_fast no_input_collaborators empty_request)).
  reflexivity.
Defined.

Lemma RunFunction_failures_after_options_witness :
  RunFunction (missing_key_collaborators "{{ .a }}" (Some ["missingkey=error"]))
    empty_request =
    Returned (fatal_response empty_request
      ("cannot execute template: " +:+ "map has no entry for key"), ErrNil).
Proof.
  refine (proj2 (proj2 (RunFunction_failures_after_options
           (missing_key_collaborators "{{ .a }}" (Some ["missingkey=error"]))
           empty_request
           {| template.text := "{{ .a }}"; template.missingKey := template.mapError |}
           _)) ∅ "map has no entry for key" _ _).
  - exists {| Source := "Inline"; Delims := None; Options := Some ["missingkey=error"] |},
      "{{ .a }}", (literal_template "{{ .a }}").
    split; [reflexivity|]. split; [reflexivity|]. split; [reflexivity|].
    right. exists ["missingkey=error"]. split; reflexivity.
  - reflexivity.
  - reflexivity.
Defined.

(** *** [convertToMap] *)

(** X6.  In every map that [convertToMap] returns, the key
    [extraResources] is present whenever [requiredResources] is. *)
Theorem convertToMap_legacy_key_invariant {Template} (E : Collaborators Template)
    req (out : gmap string Value) :
  convertToMap E req = inl out ->
  is_Some (out !! "requiredResources") -> is_Some (out !! "extraResources").
Proof.
  unfold convertToMap.
  destruct (protojson_Marshal E req) as [jReq|e]; [|discriminate].
  destruct (json_Unmarshal E jReq) as [mReq|e]; [|discriminate].
  destruct (mReq !! "extraResources") as [x|] eqn:Hextra.
  - intros [= <-] _. by rewrite Hextra.
  - destruct (mReq !! "requiredResources") as [r|] eqn:Hreq.
    + intros [= <-] _. rewrite lookup_insert_eq. by eexists.
    + intros [= <-]. rewrite Hreq. by intros [? ?].
Qed.

Lemma convertToMap_legacy_key_invariant_witness :
  is_Some ((<["extraResources" := VString "r"]>
              ({[ "requiredResources" := VString "r" ]} : gmap string Value))
           !! "extraResources").
Proof.
  apply (convertToMap_legacy_key_invariant
           (inline_collaborators "" None {[ "requiredResources" := VString "r" ]})
           empty_request).
  - reflexivity.
  - exists (VString "r"). reflexivity.
Defined.

(** X7.  [convertToMap] returns a map exactly when both codecs succeed;
    its error is never nil and is the text of the failing codec's error
    behind [cannot marshal request from proto to json: ] or [cannot
    unmarshal json to map[string]any: ]. *)
Theorem convertToMap_errors {Template} (E : Collaborators Template) req :
  (forall out, convertToMap E req = inl out ->
     exists jReq mReq, protojson_Marshal E req = inl jReq /\
                       json_Unmarshal E jReq = inl mReq) /\
  (forall err, convertToMap E req = inr err ->
     (exists e, protojson_Marshal E req = inr e /\
                err = Err ("cannot marshal request from proto to json: " +:+ e)) \/
     (exists jReq e, protojson_Marshal E req = inl jReq /\
                     json_Unmarshal E jReq = inr e /\
                     err = Err ("cannot unmarshal json to map[string]any: " +:+ e))).
Proof.
  split; [|apply convertToMap_inr].
  intros out. unfold convertToMap.
  destruct (protojson_Marshal E req) as [jReq|e]; [|discriminate].
  destruct (json_Unmarshal E jReq) as [mReq|e] eqn:Hu; [|discriminate].
  intros _. by exists jReq, mReq.
Qed.

Lemma convertToMap_errors_witness :
  exists jReq mReq,
    protojson_Marshal (inline_collaborators "" None ∅) empty_request = inl jReq /\
    json_Unmarshal (inline_collaborators "" None ∅) jReq = inl mReq.
Proof.
  apply (proj1 (convertToMap_errors (inline_collaborators "" None ∅)
                  empty_request) ∅).
  reflexivity.
Defined.

(** *** The options of [text/template] *)

Lemma cut_eq_Some s key value :
  template.cut_eq s = Some (key, value) -> s = key +:+ String "=" value.
Proof.
  revert key. induction s as [|c s IH]; intros key; simpl; [discriminate|].
  destruct (Ascii.eqb_spec c "=") as [->|_].
  - by intros [= <- <-].
  - destruct (template.cut_eq s) as [[k v]|]; [|discriminate].
    intros [= <- <-]. rewrite append_cons. f_equal. by apply IH.
Qed.

(** [setOption] accepts the four [missingkey] options and panics on every
    other string. *)
Lemma setOption_spec t opt :
  template.setOption t opt =
    if valid_option opt then
      (template.set_missingKey t (option_action opt), Returned tt)
    else (t, Panicked (option_panic opt)).
Proof.
  destruct (valid_option opt) eqn:Hvalid.
  - unfold valid_option in Hvalid.
    repeat (apply orb_true_iff in Hvalid as [Hvalid|Hvalid]);
      apply String.eqb_eq in Hvalid; subst opt; reflexivity.
  - unfold template.setOption, option_panic.
    destruct (String.eqb_spec opt "") as [->|Hne]; [reflexivity|].
    destruct (template.cut_eq opt) as [[key value]|] eqn:Hcut; [|reflexivity].
    apply cut_eq_Some in Hcut.
    destruct (String.eqb_spec key "missingkey") as [->|_]; [|reflexivity].
    destruct (String.eqb_spec value "invalid") as [->|_];
      [subst opt; discriminate Hvalid|].
    destruct (String.eqb_spec value "default") as [->|_];
      [subst opt; discriminate Hvalid|].
    cbn [orb].
    destruct (String.eqb_spec value "zero") as [->|_];
      [subst opt; discriminate Hvalid|].
    destruct (String.eqb_spec value "error") as [->|_];
      [subst opt; discriminate Hvalid|].
    reflexivity.
Qed.

Lemma Option_valid t opts :
  forallb valid_option opts = true ->
  template.Option t opts = (with_options t opts, Returned tt).
Proof.
  revert t. induction opts as [|opt opts IH]; intros t Hall; [reflexivity|].
  simpl in Hall. apply andb_true_iff in Hall as [Hopt Hall].
  cbn [template.Option]. rewrite setOption_spec, Hopt. by rewrite IH.
Qed.

Lemma Option_first_invalid t good bad rest :
  forallb valid_option good = true -> valid_option bad = false ->
  template.Option t (good ++ bad :: rest) =
    (with_options t good, Panicked (option_panic bad)).
Proof.
  revert t. induction good as [|opt good IH]; intros t Hall Hbad.
  - cbn [app template.Option]. by rewrite setOption_spec, Hbad.
  - simpl in Hall. apply andb_true_iff in Hall as [Hopt Hall].
    cbn [app template.Option]. rewrite setOption_spec, Hopt. by rewrite IH.
Qed.

(** X8.  With the option setter of [text/template]:
    [safeApplyTemplateOptions] returns a nil error when every option is
    one of [missingkey=invalid], [missingkey=default], [missingkey=zero],
    [missingkey=error], and the template then has the options set in
    order; at the first other option it returns the error [panic occurred
    while applying template options: ] followed by [empty option string]
    or [unrecognized option: <option>], the later options are not looked
    at, and the template keeps the options set before. *)
Theorem safeApplyTemplateOptions_text_template
    (E : Collaborators template.Template) t :
  (forall t' opts, Option E t' opts = template.Option t' opts) ->
  (forall opts, forallb valid_option opts = true ->
     safeApplyTemplateOptions E t opts = (with_options t opts, Returned ErrNil)) /\
  (forall good bad rest,
     forallb valid_option good = true -> valid_option bad = false ->
     safeApplyTemplateOptions E t (good ++ bad :: rest) =
       (with_options t good,
        Returned (Err ("panic occurred while applying template options: "
                       +:+ fmt.format_v (option_panic bad))))).
Proof.
  intros HE. split.
  - intros opts Hall. rewrite safeApplyTemplateOptions_eq, HE.
    by rewrite Option_valid.
  - intros good bad rest Hgood Hbad. rewrite safeApplyTemplateOptions_eq, HE.
    by rewrite Option_first_invalid.
Qed.

Lemma safeApplyTemplateOptions_text_template_witness :
  safeApplyTemplateOptions (inline_collaborators "" None ∅)
    (literal_template "x") (["missingkey=zero"; "missingkey=error"] ++ "" :: ["missingkey=zero"]) =
    (with_options (literal_template "x") ["missingkey=zero"; "missingkey=error"],
     Returned (Err ("panic occurred while applying template options: "
                    +:+ fmt.format_v (option_panic "")))).
Proof.
  apply (proj2 (safeApplyTemplateOptions_text_template
                  (inline_collaborators "" None ∅) (literal_template "x")
                  (fun _ _ => eq_refl))); reflexivity.
Defined.

(** *** [moveToNextDoc] *)

(** X9.  From every start line [s <= 0], [moveToNextDoc] panics at its
    first read, of index [s - 1] (computed in [int]), which is outside the
    slice, and reads nothing else. *)
Theorem moveToNextDoc_nonpositive_start lines s :
  slice_ok lines -> GoInt.in_range s -> s <= 0 ->
  moveToNextDoc_reads lines s = Some [GoInt.sub s 1] /\
  moveToNextDoc lines s =
    Some (Panicked (IndexOutOfRange (GoInt.sub s 1) (length lines))) /\
  ~ (0 <= GoInt.sub s 1 < len lines).
Proof.
  intros Hok Hs Hle. unfold moveToNextDoc_reads, moveToNextDoc.
  rewrite moveToNextDoc_run_nonpositive; [|unfold slice_ok in Hok; lia|done|done].
  split; [reflexivity|]. split; [reflexivity|].
  unfold slice_ok, GoInt.in_range, GoInt.min_int, GoInt.max_int in *.
  destruct (Z.eq_dec s (- 2 ^ 63)) as [->|Hne].
  - change (GoInt.sub (- 2 ^ 63) 1) with (2 ^ 63 - 1). lia.
  - unfold GoInt.sub. rewrite wrap_id; [lia|].
    unfold GoInt.in_range, GoInt.min_int, GoInt.max_int. lia.
Qed.

Lemma moveToNextDoc_nonpositive_start_witness :
  moveToNextDoc_reads two_documents (-2) = Some [GoInt.sub (-2) 1] /\
  moveToNextDoc two_documents (-2) =
    Some (Panicked (IndexOutOfRange (GoInt.sub (-2) 1) (length two_documents))) /\
  ~ (0 <= GoInt.sub (-2) 1 < len two_documents).
Proof.
  apply (moveToNextDoc_nonpositive_start two_documents (-2)).
  - apply slice_ok_small. simpl. lia.
  - apply in_range_small. lia.
  - lia.
Defined.

(** X10.  From a start line [s >= 1], [moveToNextDoc] never moves
    backwards and never past the last line: the result is [s] or a line
    after [s] within the slice, and it is [s] when [s] is the last line
    or beyond it. *)
Theorem moveToNextDoc_result_range lines s :
  slice_ok lines -> 1 <= s ->
  exists r,
    moveToNextDoc lines s = Some (Returned r) /\
    s <= r /\ (r = s \/ r <= len lines) /\
    (len lines <= s -> r = s).
Proof.
  intros Hok Hs.
  destruct (moveToNextDoc_run_spec lines s Hok Hs) as (ks & r & Hrun & _ & Hr).
  exists r. unfold moveToNextDoc. rewrite Hrun. split; [reflexivity|].
  destruct Hr as [(Hlt & (line & Hline & _) & _)|[-> _]].
  - unfold line_at in Hline. destruct (Z.leb_spec 1 r); [|discriminate].
    apply lookup_lt_Some in Hline. unfold len. lia.
  - lia.
Qed.

Lemma moveToNextDoc_result_range_witness :
  exists r,
    moveToNextDoc two_documents 3 = Some (Returned r) /\
    3 <= r /\ (r = 3 \/ r <= len two_documents) /\
    (len two_documents <= 3 -> r = 3).
Proof.
  apply (moveToNextDoc_result_range two_documents 3).
  - apply slice_ok_small. simpl. lia.
  - lia.
Defined.

Lemma moveToNextDoc_loop_reads fuel : forall lines s i ks o,
  slice_ok lines -> 1 <= i ->
  moveToNextDoc_loop fuel lines s i = Some (ks, o) ->
  exists n, ks = seqZ (i - 1) n /\ 0 <= n <= Z.max 0 (len lines + 1 - i).
Proof.
  induction fuel as [|fuel IH]; intros lines s i ks o Hok Hi; [discriminate|].
  cbn [moveToNextDoc_loop]. unfold slice_ok, GoInt.max_int in Hok.
  destruct (Z.leb_spec i (len lines)) as [Hle|Hgt].
  - assert (Hsub : GoInt.sub i 1 = i - 1).
    { apply wrap_id. unfold GoInt.in_range, GoInt.min_int, GoInt.max_int. lia. }
    assert (Hadd : GoInt.add i 1 = i + 1).
    { apply wrap_id. unfold GoInt.in_range, GoInt.min_int, GoInt.max_int. lia. }
    rewrite Hsub, Hadd.
    destruct (index_in_range lines (i - 1)) as (line & -> & _); [lia|].
    destruct (String.eqb (strings.TrimSpace line) "---" && (s <? i)).
    + intros [= <- <-]. exists 1. split; [reflexivity|lia].
    + destruct (moveToNextDoc_loop fuel lines s (i + 1)) as [[ks' o']|] eqn:Hrec;
        [|discriminate].
      intros [= <- <-].
      apply IH in Hrec as (n & -> & Hn); [|done|lia].
      exists (Z.succ n). split; [|lia].
      rewrite (seqZ_cons (i - 1) (Z.succ n)) by lia. do 2 f_equal; lia.
  - intros [= <- <-]. exists 0. split; [reflexivity|lia].
Qed.

(** X11.  From a start line [s >= 1], [moveToNextDoc] reads the lines
    one after the other from line [s], each at most once: the indices
    read are [s - 1], [s], ... in order, at most [len(lines) + 1 - s] of
    them. *)
Theorem moveToNextDoc_linear_scan lines s :
  slice_ok lines -> 1 <= s ->
  exists n,
    moveToNextDoc_reads lines s = Some (seqZ (s - 1) n) /\
    0 <= n <= Z.max 0 (len lines + 1 - s).
Proof.
  intros Hok Hs.
  destruct (moveToNextDoc_run_spec lines s Hok Hs) as (ks & r & Hrun & _ & _).
  pose proof Hrun as Hreads. unfold moveToNextDoc_run in Hreads.
  apply moveToNextDoc_loop_reads in Hreads as (n & -> & Hn); [|done|done].
  exists n. unfold moveToNextDoc_reads. by rewrite Hrun.
Qed.

Lemma moveToNextDoc_linear_scan_witness :
  exists n,
    moveToNextDoc_reads two_documents 1 = Some (seqZ (1 - 1) n) /\
    0 <= n <= Z.max 0 (len two_documents + 1 - 1).
Proof.
  apply (moveToNextDoc_linear_scan two_documents 1).
  - apply slice_ok_small. simpl. lia.
  - lia.
Defined.

(** X12.  The cursor and the locator together: when [r] is the first
    separator after line [s] and the decode error of the document that
    follows reports the relative line [N], with [r + N] within the slice,
    [getYamlErrorContextFromErr] from the cursor that [moveToNextDoc]
    returns gives the absolute line [r + N], its literal line and the
    trimmed message. *)
Theorem locate_in_next_document lines s r N rest :
  slice_ok lines -> 1 <= s -> GoInt.in_range N ->
  first_separator_after lines s r ->
  1 <= r + N <= len lines ->
  exists start line,
    moveToNextDoc lines s = Some (Returned start) /\
    start = r /\
    line_at lines (r + N) = Some line /\
    getYamlErrorContextFromErr (Err (fmt.Sprintf yamlLineFormat N +:+ rest))
      start lines =
      Returned {| RelLine := N; AbsLine := r + N;
                  Message := strings.TrimSpace rest; Context := line |}.
Proof.
  intros Hok Hs HN Hfirst Hb.
  destruct (moveToNextDoc_run_spec lines s Hok Hs) as (ks & r' & Hrun & _ & Hr).
  assert (r' = r) as ->.
  { destruct Hfirst as (Hlt & Hsep & Hmin).
    destruct Hr as [(Hlt' & Hsep' & Hmin')|[-> Hnone]].
    - destruct (Z.lt_trichotomy r' r) as [H|[H|H]]; [|exact H|].
      + exfalso. apply (Hmin r'); [lia|exact Hsep'].
      + exfalso. apply (Hmin' r); [lia|exact Hsep].
    - exfalso. apply (Hnone r); [lia|exact Hsep]. }
  destruct (getYamlErrorContextFromErr_canonical N r lines rest HN Hok Hb)
    as (line & Hline & Hctx).
  exists r, line. unfold moveToNextDoc. rewrite Hrun.
  split; [reflexivity|]. split; [reflexivity|]. split; [exact Hline|exact Hctx].
Qed.

Lemma first_separator_two_documents : first_separator_after two_documents 1 2.
Proof.
  split; [lia|]. split.
  - exists "---". split; vm_compute; reflexivity.
  - intros j Hj. lia.
Defined.

Lemma locate_in_next_document_witness :
  exists start line,
    moveToNextDoc two_documents 1 = Some (Returned start) /\
    start = 2 /\
    line_at two_documents (2 + 1) = Some line /\
    getYamlErrorContextFromErr (Err (fmt.Sprintf yamlLineFormat 1 +:+ " boom"))
      start two_documents =
      Returned {| RelLine := 1; AbsLine := 2 + 1;
                  Message := strings.TrimSpace " boom"; Context := line |}.
Proof.
  apply (locate_in_next_document two_documents 1 2 1 " boom").
  - apply slice_ok_small. simpl. lia.
  - lia.
  - apply in_range_small. lia.
  - apply first_separator_two_documents.
  - change (len two_documents) with 3. lia.
Defined.

(** *** [getYamlErrorContextFromErr] on every error text *)

(** The function when the pattern matches, with its two blocks. *)
Lemma getYamlErrorContextFromErr_matched_eq text N s lines :
  scan_matches text N ->
  getYamlErrorContextFromErr (Err text) s lines =
    (errMsg ←
       (if negb (strings.Index text (fmt.Sprintf yamlLineFormat N) =? -1) then
          tail ← slice_from text
                   (GoInt.add (strings.Index text (fmt.Sprintf yamlLineFormat N))
                              (strlen (fmt.Sprintf yamlLineFormat N)));
          Returned (strings.TrimSpace tail)
        else Returned "");
     if (GoInt.sub (GoInt.add s N) 1 <? len lines)
        && (0 <=? GoInt.sub (GoInt.add s N) 1) then
       line ← index lines (GoInt.sub (GoInt.add s N) 1);
       Returned {| RelLine := N; AbsLine := GoInt.add s N; Message := errMsg;
                   Context := line |}
     else Returned YamlErrorContext_zero).
Proof.
  intros Hscan. unfold getYamlErrorContextFromErr.
  change (Error_ (Err text)) with (Returned text). rewrite !bind_Returned.
  unfold scan_matches in Hscan. rewrite Hscan.
  cbn [fmt.scan_n fmt.scan_err fmt.scan_arg]. change (1 =? 1) with true. cbv iota.
  reflexivity.
Qed.

Lemma getYamlErrorContextFromErr_unmatched text s lines :
  scan_fails text ->
  getYamlErrorContextFromErr (Err text) s lines = Returned YamlErrorContext_zero.
Proof.
  unfold scan_fails, getYamlErrorContextFromErr. intros Hfail.
  change (Error_ (Err text)) with (Returned text). rewrite !bind_Returned.
  destruct (fmt.Sscanf text yamlLineFormat 0) as [n [|e] a];
    cbn [fmt.scan_n fmt.scan_err fmt.scan_arg] in *.
  - destruct (Z.eqb_spec n 1) as [->|_]; [|by rewrite bind_Returned].
    exfalso. by apply Hfail.
  - by rewrite bind_Returned.
Qed.

Lemma scan_matches_or_fails text :
  (exists N, scan_matches text N) \/ scan_fails text.
Proof.
  unfold scan_matches, scan_fails.
  destruct (fmt.Sscanf text yamlLineFormat 0) as [n [|e] a];
    cbn [fmt.scan_n fmt.scan_err].
  - destruct (Z.eq_dec n 1) as [->|Hne].
    + left. by exists a.
    + right. by intros [_ ?].
  - right. by intros [? _].
Qed.

(** The line test of the second block, when it passes. *)
Lemma line_test_passes lines a :
  slice_ok lines -> GoInt.in_range a ->
  (GoInt.sub a 1 <? len lines) && (0 <=? GoInt.sub a 1) = true ->
  1 <= a <= len lines /\ GoInt.sub a 1 = a - 1 /\
  exists line, index lines (a - 1) = Returned line /\ line_at lines a = Some line.
Proof.
  intros Hok Ha Htest. apply andb_true_iff in Htest as [Hlt%Z.ltb_lt Hge%Z.leb_le].
  unfold slice_ok, GoInt.in_range, GoInt.min_int, GoInt.max_int in *.
  destruct (Z.eq_dec a (- 2 ^ 63)) as [->|Hne].
  { change (GoInt.sub (- 2 ^ 63) 1) with (2 ^ 63 - 1) in *. lia. }
  assert (Hsub : GoInt.sub a 1 = a - 1).
  { apply wrap_id. unfold GoInt.in_range, GoInt.min_int, GoInt.max_int. lia. }
  rewrite Hsub in *. split; [lia|]. split; [reflexivity|].
  destruct (index_in_range lines (a - 1)) as (line & Hi & Hl); [lia|].
  exists line. split; [exact Hi|]. unfold line_at.
  destruct (Z.leb_spec 1 a); [exact Hl|lia].
Qed.

(** X13.  [getYamlErrorContextFromErr] returns for every non-nil error,
    start line and slice of lines: neither the slice expression of the
    message nor the index expression of the line panics. *)
Theorem getYamlErrorContextFromErr_returns text s lines :
  string_ok text -> slice_ok lines ->
  exists ctx, getYamlErrorContextFromErr (Err text) s lines = Returned ctx.
Proof.
  intros Htext Hok.
  destruct (scan_matches_or_fails text) as [[N Hscan]|Hfail].
  - destruct (message_block_returns text N Htext) as (m & Hm). cbv zeta in Hm.
    rewrite (getYamlErrorContextFromErr_matched_eq text N s lines Hscan), Hm.
    rewrite bind_Returned.
    destruct ((GoInt.sub (GoInt.add s N) 1 <? len lines)
              && (0 <=? GoInt.sub (GoInt.add s N) 1)) eqn:Htest; [|by eexists].
    apply line_test_passes in Htest as (_ & -> & line & -> & _);
      [|done|apply wrap_in_range].
    rewrite bind_Returned. by eexists.
  - rewrite getYamlErrorContextFromErr_unmatched by done. by eexists.
Qed.

Lemma string_ok_small s : (String.length s < 1000)%nat -> string_ok s.
Proof. unfold string_ok, strlen, GoInt.max_int. lia. Qed.

Lemma getYamlErrorContextFromErr_returns_witness :
  exists ctx, getYamlErrorContextFromErr (Err flow_error) 2 two_documents = Returned ctx.
Proof.
  apply (getYamlErrorContextFromErr_returns flow_error 2 two_documents).
  - apply string_ok_small. vm_compute. lia.
  - apply slice_ok_small. simpl. lia.
Defined.

(** X14.  Every context that [getYamlErrorContextFromErr] returns is
    the zero context, or is consistent: the pattern matched with
    [RelLine] read from the text, [AbsLine] is the start line plus
    [RelLine] (in [int]), it is within the slice and [Context] is the line
    at [AbsLine]. *)
Theorem getYamlErrorContextFromErr_result text s lines ctx :
  slice_ok lines ->
  getYamlErrorContextFromErr (Err text) s lines = Returned ctx ->
  ctx = YamlErrorContext_zero \/
  (scan_matches text (RelLine ctx) /\
   AbsLine ctx = GoInt.add s (RelLine ctx) /\
   1 <= AbsLine ctx <= len lines /\
   line_at lines (AbsLine ctx) = Some (Context ctx)).
Proof.
  intros Hok Hrun.
  destruct (scan_matches_or_fails text) as [[N Hscan]|Hfail].
  - rewrite (getYamlErrorContextFromErr_matched_eq text N s lines Hscan) in Hrun.
    match type of Hrun with (?block ≫= _) = _ => destruct block as [m|v] end;
      [|discriminate Hrun].
    rewrite bind_Returned in Hrun.
    destruct ((GoInt.sub (GoInt.add s N) 1 <? len lines)
              && (0 <=? GoInt.sub (GoInt.add s N) 1)) eqn:Htest.
    + apply line_test_passes in Htest as (Hb & Hsub & line & Hidx & Hline);
        [|done|apply wrap_in_range].
      rewrite Hsub, Hidx, bind_Returned in Hrun. injection Hrun as <-.
      right. cbn [RelLine AbsLine Context]. done.
    + injection Hrun as <-. by left.
  - rewrite getYamlErrorContextFromErr_unmatched in Hrun by done.
    injection Hrun as <-. by left.
Qed.

Lemma getYamlErrorContextFromErr_result_witness :
  {| RelLine := 1; AbsLine := 3; Message := "did not find expected ',' or ']'";
     Context := "b: [1,2" |} = YamlErrorContext_zero \/
  (scan_matches flow_error 1 /\
   3 = GoInt.add 2 1 /\
   1 <= 3 <= len two_documents /\
   line_at two_documents 3 = Some "b: [1,2").
Proof.
  apply (getYamlErrorContextFromErr_result flow_error 2 two_documents
           {| RelLine := 1; AbsLine := 3; Message := "did not find expected ',' or ']'";
              Context := "b: [1,2" |}).
  - apply slice_ok_small. simpl. lia.
  - vm_compute. reflexivity.
Defined.

(** X15.  [Message] needs the phrase as [Sprintf] writes it: when the
    pattern matches but the text does not contain the phrase with the
    number in plain decimal (the scan also accepts a sign and leading
    zeros), the context returned has the line and the line numbers, and
    an empty [Message]. *)
Theorem getYamlErrorContextFromErr_message_needs_canonical_prefix text N s lines :
  scan_matches text N ->
  strings.Index text (fmt.Sprintf yamlLineFormat N) = -1 ->
  slice_ok lines -> 1 <= s + N <= len lines ->
  exists line,
    line_at lines (s + N) = Some line /\
    getYamlErrorContextFromErr (Err text) s lines =
      Returned {| RelLine := N; AbsLine := s + N; Message := ""; Context := line |}.
Proof.
  intros Hscan Hidx Hok Hb.
  destruct (line_in_bounds lines s N Hok Hb) as (Hadd & Hsub & line & Hline & Hi).
  exists line. split; [exact Hline|].
  rewrite (getYamlErrorContextFromErr_matched_eq text N s lines Hscan), Hidx.
  change (negb (-1 =? -1)) with false. cbv iota. rewrite bind_Returned.
  rewrite Hadd, Hsub, Hi.
  destruct (Z.ltb_spec (s + N - 1) (len lines)); [|lia].
  destruct (Z.leb_spec 0 (s + N - 1)); [|lia].
  reflexivity.
Qed.

Lemma getYamlErrorContextFromErr_message_needs_canonical_prefix_witness :
  exists line,
    line_at two_documents (2 + 1) = Some line /\
    getYamlErrorContextFromErr
      (Err "error converting YAML to JSON: yaml: line +1: did not find expected key")
      2 two_documents =
      Returned {| RelLine := 1; AbsLine := 2 + 1; Message := ""; Context := line |}.
Proof.
  apply (getYamlErrorContextFromErr_message_needs_canonical_prefix
           "error converting YAML to JSON: yaml: line +1: did not find expected key"
           1 2 two_documents).
  - vm_compute. reflexivity.
  - vm_compute. reflexivity.
  - apply slice_ok_small. simpl. lia.
  - change (len two_documents) with 3. lia.
Defined.

(** A text whose first byte is ASCII and is not [e] does not match. *)
Lemma scan_fails_first_byte c rest :
  byte_val c < 0x80 -> byte_val c <> 101 -> scan_fails (String c rest).
Proof.
  intros Hascii Hne. unfold scan_fails, fmt.Sscanf.
  let d := eval vm_compute in (fmt.directives yamlLineFormat) in
  change (fmt.directives yamlLineFormat) with d.
  cbn [fmt.doScanf]. rewrite getRune_ascii by done.
  pose proof (byte_val_nonneg c).
  destruct (Z.eqb_spec (byte_val c) fmt.eof) as [He|_]; [unfold fmt.eof in He; lia|].
  destruct (Z.eqb_spec (byte_val c) 101) as [He|_]; [done|].
  cbn [fmt.scan_err]. by intros [? _].
Qed.

(** X16.  The pattern is anchored at the start of the text: for the
    error as [RunFunction] reports it, wrapped in [cannot decode manifest:
    ], [getYamlErrorContextFromErr] returns the zero context, whatever the
    error of the decoder is. *)
Theorem getYamlErrorContextFromErr_wrapped_error e s lines :
  getYamlErrorContextFromErr (errors.Wrap (Err e) "cannot decode manifest") s lines =
    Returned YamlErrorContext_zero.
Proof.
  change (errors.Wrap (Err e) "cannot decode manifest")
    with (Err (String "c" ("annot decode manifest: " +:+ e))).
  apply getYamlErrorContextFromErr_unmatched, scan_fails_first_byte.
  - reflexivity.
  - discriminate.
Qed.

(** X17.  The two uses of the format in [getYamlErrorContextFromErr]
    agree: for every [int] [N], negative and extreme values included,
    [Sscanf] reads [N] back from the phrase that [Sprintf] writes for [N],
    whatever follows it, and [Index] finds that phrase at 0. *)
Theorem Sscanf_reads_back_Sprintf N rest :
  GoInt.in_range N ->
  fmt.Sscanf (fmt.Sprintf yamlLineFormat N +:+ rest) yamlLineFormat 0 =
    {| fmt.scan_n := 1; fmt.scan_err := ErrNil; fmt.scan_arg := N |} /\
  strings.Index (fmt.Sprintf yamlLineFormat N +:+ rest) (fmt.Sprintf yamlLineFormat N) = 0.
Proof.
  intros HN. split.
  - by apply scan_matches_canonical.
  - unfold strings.Index. apply Index_from_prefix, HasPrefix_append.
Qed.

Lemma Sscanf_reads_back_Sprintf_witness :
  fmt.Sscanf (fmt.Sprintf yamlLineFormat (-7) +:+ " x") yamlLineFormat 0 =
    {| fmt.scan_n := 1; fmt.scan_err := ErrNil; fmt.scan_arg := -7 |} /\
  strings.Index (fmt.Sprintf yamlLineFormat (-7) +:+ " x")
    (fmt.Sprintf yamlLineFormat (-7)) = 0.
Proof.
  apply (Sscanf_reads_back_Sprintf (-7) " x").
  apply in_range_small. lia.
Defined.

(** *** Trimming ASCII white space *)

Lemma ascii_space_facts c :
  ascii_space c = true -> byte_val c < 0x80 /\ unicode.IsSpace (byte_val c) = true.
Proof.
  destruct c as [[] [] [] [] [] [] [] []]; intros H; vm_compute in H;
    try discriminate H; split; reflexivity.
Qed.

Lemma DecodeRuneInString_ascii c t :
  byte_val c < 0x80 -> utf8.DecodeRuneInString (String c t) = (byte_val c, 1%nat).
Proof.
  intros Hlt. unfold utf8.DecodeRuneInString, utf8.first.
  destruct (Z.ltb_spec (byte_val c) 0x80); [|lia]. reflexivity.
Qed.

Lemma trim_left_blanks pre : forall fuel c t,
  all_ascii_space pre -> (String.length pre < fuel)%nat ->
  byte_val c < 0x80 -> unicode.IsSpace (byte_val c) = false ->
  strings.trim_left fuel (pre +:+ String c t) = String c t.
Proof.
  induction pre as [|p pre IH]; intros fuel c t Hpre Hfuel Hc Hsp.
  - rewrite append_nil_l. destruct fuel as [|fuel]; [simpl in Hfuel; lia|].
    cbn [strings.trim_left]. rewrite DecodeRuneInString_ascii by done.
    by rewrite Hsp.
  - destruct Hpre as [Hp Hpre]. apply ascii_space_facts in Hp as [Hp1 Hp2].
    destruct fuel as [|fuel]; [simpl in Hfuel; lia|].
    rewrite append_cons. cbn [strings.trim_left].
    rewrite DecodeRuneInString_ascii by done. rewrite Hp2.
    cbn [string_drop]. apply IH; try done. simpl in Hfuel. lia.
Qed.

Lemma string_take_append a b : string_take (String.length a) (a +:+ b) = a.
Proof.
  induction a as [|c a IH]; [by destruct b|]. rewrite append_cons. simpl. by rewrite IH.
Qed.

Lemma substr_prefix a b : substr (a +:+ b) 0 (strlen a) = a.
Proof.
  unfold substr. rewrite Z.sub_0_r. change (Z.to_nat 0) with 0%nat.
  cbn [string_drop]. replace (string_drop 0 (a +:+ b)) with (a +:+ b) by by destruct (a +:+ b).
  unfold strlen. rewrite Nat2Z.id. apply string_take_append.
Qed.

Lemma get_last a c : String.get (String.length a) (a +:+ String c "") = Some c.
Proof. induction a as [|x a IH]; [reflexivity|]. rewrite append_cons. simpl. exact IH. Qed.

Lemma DecodeLastRuneInString_ascii a c :
  byte_val c < 0x80 ->
  utf8.DecodeLastRuneInString (a +:+ String c "") = (byte_val c, 1%nat).
Proof.
  intros Hlt. unfold utf8.DecodeLastRuneInString.
  rewrite strlen_append. change (strlen (String c "")) with 1.
  pose proof (strlen_nonneg a).
  destruct (Z.eqb_spec (strlen a + 1) 0); [lia|].
  replace (strlen a + 1 - 1) with (strlen a) by lia.
  unfold byte_at, strlen. rewrite Nat2Z.id, get_last.
  unfold utf8.RuneSelf. destruct (Z.ltb_spec (byte_val c) 0x80); [reflexivity|lia].
Qed.

Lemma string_snoc_inv s :
  s = "" \/ exists s' c, s = s' +:+ String c "".
Proof.
  induction s as [|x s IH]; [by left|]. right.
  destruct IH as [->|(s' & c & ->)].
  - by exists "", x.
  - exists (String x s'), c. by rewrite append_cons.
Qed.

Lemma all_ascii_space_app a b :
  all_ascii_space (a +:+ b) <-> all_ascii_space a /\ all_ascii_space b.
Proof.
  induction a as [|x a IH]; [rewrite append_nil_l; simpl; tauto|].
  rewrite append_cons. simpl. rewrite IH. tauto.
Qed.

Lemma trim_right_blanks fuel : forall a c post tail,
  all_ascii_space post -> (String.length post < fuel)%nat ->
  byte_val c < 0x80 -> unicode.IsSpace (byte_val c) = false ->
  strings.trim_right fuel ((a +:+ String c "") +:+ post +:+ tail)
    (strlen ((a +:+ String c "") +:+ post)) = a +:+ String c "".
Proof.
  induction fuel as [|fuel IH]; intros a c post tail Hpost Hfuel Hc Hsp; [lia|].
  cbn [strings.trim_right].
  pose proof (strlen_nonneg a). pose proof (strlen_nonneg post).
  destruct (Z.leb_spec (strlen ((a +:+ String c "") +:+ post)) 0) as [Hle|_].
  { rewrite !strlen_append in Hle. change (strlen (String c "")) with 1 in Hle. lia. }
  set (core := a +:+ String c "") in *.
  assert (Hs : substr (core +:+ post +:+ tail) 0 (strlen (core +:+ post)) = core +:+ post).
  { rewrite <- append_assoc. apply substr_prefix. }
  rewrite Hs.
  destruct (string_snoc_inv post) as [->|(post' & p & ->)].
  - rewrite append_nil_r. subst core. rewrite DecodeLastRuneInString_ascii by done.
    by rewrite Hsp.
  - apply all_ascii_space_app in Hpost as [Hpost' [Hp _]].
    apply ascii_space_facts in Hp as [Hp1 Hp2].
    assert (Hd : utf8.DecodeLastRuneInString (core +:+ post' +:+ String p "")
                 = (byte_val p, 1%nat)).
    { rewrite <- append_assoc. by apply DecodeLastRuneInString_ascii. }
    rewrite Hd, Hp2.
    replace (strlen (core +:+ post' +:+ String p "") - Z.of_nat 1)
      with (strlen (core +:+ post')).
    2:{ rewrite !strlen_append. change (strlen (String p "")) with 1. lia. }
    replace (core +:+ (post' +:+ String p "") +:+ tail)
      with (core +:+ post' +:+ (String p "" +:+ tail))
      by (by rewrite !append_assoc).
    subst core. apply IH; try done.
    rewrite length_append in Hfuel. simpl in Hfuel. lia.
Qed.

(** [TrimSpace] removes ASCII white space around a text that starts and
    ends with ASCII bytes that are not white space. *)
Lemma TrimSpace_blanks pre post c0 t a c :
  all_ascii_space pre -> all_ascii_space post ->
  String c0 t = a +:+ String c "" ->
  byte_val c0 < 0x80 -> unicode.IsSpace (byte_val c0) = false ->
  byte_val c < 0x80 -> unicode.IsSpace (byte_val c) = false ->
  strings.TrimSpace (pre +:+ String c0 t +:+ post) = String c0 t.
Proof.
  intros Hpre Hpost Hcore Hc0 Hsp0 Hc Hsp. unfold strings.TrimSpace.
  rewrite (append_cons c0 t post).
  rewrite trim_left_blanks; [|done|rewrite length_append; simpl; lia|done|done].
  cbv zeta. rewrite <- (append_cons c0 t post), Hcore.
  pose proof (trim_right_blanks (String.length ((a +:+ String c "") +:+ post))
                a c post "" Hpost) as Htrim.
  rewrite !append_nil_r in Htrim. apply Htrim; [|done|done].
  rewrite !length_append. simpl. lia.
Qed.

(** X18.  The separator test of [moveToNextDoc] accepts a padded
    separator: a line made of [---] with ASCII white space (spaces, tabs,
    a carriage return, ...) before and after it is a document
    separator. *)
Theorem padded_separator lines i pre post :
  line_at lines i = Some (pre +:+ "---" +:+ post) ->
  all_ascii_space pre -> all_ascii_space post ->
  separator_at lines i.
Proof.
  intros Hline Hpre Hpost. exists (pre +:+ "---" +:+ post). split; [exact Hline|].
  apply (TrimSpace_blanks pre post "-" "--" "--" "-"); try done.
Qed.

Lemma padded_separator_witness :
  separator_at ["a: 1"; "  --- "] 2.
Proof.
  apply (padded_separator ["a: 1"; "  --- "] 2 "  " " ").
  - reflexivity.
  - repeat split.
  - repeat split.
Defined.
